(** * export_critiques_to_tex: a shallow embedding and its verified properties

    The development follows [src/export_critiques_to_tex.py] function by
    function.  Python values coming out of [json.load] are the inductive
    type [json]; a Python [str] is a list of Unicode code points; a Python
    exception is the [Raise] case of [result]. *)

From Stdlib Require Import ZArith NArith Floats Uint63 DecimalString.
From Stdlib Require String Ascii.
From stdpp Require Import base list gmap strings.

Set Warnings "-register-all".
Local Open Scope N_scope.
Local Open Scope list_scope.

(** ** Strings *)

(** A character is its code point, a [str] the sequence of them. *)
Definition char := N.
Definition str := list char.

(** [lit "..."] is the [str] of a literal; Rocq literals take a backslash
    as it is, so they read like Python raw strings. *)
Definition lit (s : String.string) : str :=
  map Ascii.N_of_ascii (String.list_ascii_of_string s).

Definition NL : char := 10.
Definition BACKSLASH : char := 92.
Definition OPEN_BRACE : char := 123.
Definition CLOSE_BRACE : char := 125.

Definition str_eqb (a b : str) : bool := bool_decide (a = b).

(** [str(n)] for a Python int. *)
Definition str_of_Z (z : Z) : str := lit (NilZero.string_of_int (Z.to_int z)).

(** [sub in s] on strings: [s] has [sub] as a contiguous run. *)
Fixpoint starts_with (p s : str) : bool :=
  match p, s with
  | [], _ => true
  | a :: p', b :: s' => (a =? b) && starts_with p' s'
  | _ :: _, [] => false
  end.

Fixpoint contains (sub s : str) : bool :=
  starts_with sub s ||
  match s with
  | [] => false
  | _ :: s' => contains sub s'
  end.

(** [s.count(c)] for a one-character argument. *)
Definition count_char (c : char) (s : str) : nat := count_occ N.eq_dec s c.

(** [str.isspace] on one character: the code points CPython's
    [_PyUnicode_IsWhitespace] accepts. *)
Definition is_space (c : char) : bool :=
  ((9 <=? c) && (c <=? 13)) || ((28 <=? c) && (c <=? 32))
  || (c =? 133) || (c =? 160) || (c =? 5760)
  || ((8192 <=? c) && (c <=? 8202))
  || (c =? 8232) || (c =? 8233) || (c =? 8239) || (c =? 8287) || (c =? 12288).

Fixpoint lstrip (s : str) : str :=
  match s with
  | c :: s' => if is_space c then lstrip s' else s
  | [] => []
  end.

Definition rstrip (s : str) : str := rev (lstrip (rev s)).

(** [s.strip()] *)
Definition strip (s : str) : str := rstrip (lstrip s).

(** [s.replace(a, b)] for one-character [a] and [b]. *)
Definition replace_char (a b : char) (s : str) : str :=
  map (fun c => if c =? a then b else c) s.

Definition is_lower (c : char) : bool := (97 <=? c) && (c <=? 122).
Definition is_upper (c : char) : bool := (65 <=? c) && (c <=? 90).

(** [s.title()] on the ASCII letters; [prev] tells whether the previous
    character was cased. *)
Fixpoint title_from (prev : bool) (s : str) : str :=
  match s with
  | [] => []
  | c :: s' =>
      if is_lower c then (if prev then c else c - 32) :: title_from true s'
      else if is_upper c then (if prev then c + 32 else c) :: title_from true s'
      else c :: title_from false s'
  end.

Definition title (s : str) : str := title_from false s.

(** ** Regular expressions of the source

    The source uses two shapes of pattern only.  [re_sub_class] is
    [re.sub] for a pattern that is one capturing character class: every
    character of the class is a match, and is replaced by the template
    evaluated on it. *)
Definition re_sub_class (cls : char -> bool) (template : char -> str) (s : str) : str :=
  flat_map (fun c => if cls c then template c else [c]) s.

Definition no_newline (s : str) : bool := forallb (fun c => negb (c =? NL)) s.

(** [strip_suffix suf s] is [Some m] when [s = m ++ suf]. *)
Definition strip_prefix (p s : str) : option str :=
  if starts_with p s then Some (drop (length p) s) else None.

Definition strip_suffix (suf s : str) : option str :=
  match strip_prefix (rev suf) (rev s) with
  | Some r => Some (rev r)
  | None => None
  end.

(** [re_sub_unwrap op cl s] is [re.sub] with replacement group 1 for the
    pattern made of [^], the literal [op], a greedy capturing group of any
    characters, the literal [cl] and [$].  Without flags [^] matches at the
    start only, [.] matches everything but a newline, and [$] matches at the
    end or before a final newline: there is a match when [s] is
    [op ++ m ++ cl] or [op ++ m ++ cl ++ [NL]] with [m] free of newlines, and
    the match is replaced by [m]. *)
Definition re_sub_unwrap (op cl s : str) : str :=
  match strip_prefix op s with
  | None => s
  | Some rest =>
      match strip_suffix cl rest with
      | Some m => if no_newline m then m else s
      | None =>
          match strip_suffix (cl ++ [NL]) rest with
          | Some m => if no_newline m then m ++ [NL] else s
          | None => s
          end
      end
  end.

(** ** JSON values and Python exceptions *)

(** What [json.load] returns.  A [dict] is kept as its items in order; a
    lookup takes the first item of a key. *)
Inductive json : Type :=
| JNull
| JBool (b : bool)
| JInt (z : Z)
| JFloat (f : float)
| JStr (s : str)
| JList (l : list json)
| JDict (kvs : list (str * json)).

Inductive exn : Type :=
| AttributeError
| TypeError
| KeyError
| IsADirectoryError
| FileNotFoundError
| JSONDecodeError
| UnicodeEncodeError.

Inductive result (A : Type) : Type :=
| Ok (a : A)
| Raise (e : exn).
Arguments Ok {A} a.
Arguments Raise {A} e.

#[global] Instance result_ret : MRet result := fun A a => Ok a.

#[global] Instance result_bind : MBind result := fun A B k r =>
  match r with
  | Ok a => k a
  | Raise e => Raise e
  end.

Definition is_ok {A} (r : result A) : bool :=
  match r with Ok _ => true | Raise _ => false end.

(** [bool(v)] *)
Definition truthy (v : json) : bool :=
  match v with
  | JNull => false
  | JBool b => b
  | JInt z => negb (z =? 0)%Z
  | JFloat f => negb (PrimFloat.eqb f PrimFloat.zero)
  | JStr s => negb (bool_decide (s = []))
  | JList l => match l with [] => false | _ => true end
  | JDict kvs => match kvs with [] => false | _ => true end
  end.

Definition is_dict (v : json) : bool :=
  match v with JDict _ => true | _ => false end.

Definition is_str (v : json) : bool :=
  match v with JStr _ => true | _ => false end.

(** Dictionary lookup, [k in d] and [d.get(k, default)] on the items. *)
Fixpoint lookup_key (k : str) (kvs : list (str * json)) : option json :=
  match kvs with
  | [] => None
  | (k', v) :: rest => if str_eqb k' k then Some v else lookup_key k rest
  end.

Definition has_key (k : str) (kvs : list (str * json)) : bool :=
  match lookup_key k kvs with Some _ => true | None => false end.

Definition dict_get (k : str) (default : json) (kvs : list (str * json)) : json :=
  match lookup_key k kvs with Some v => v | None => default end.

(** [v.get(k, default)]: only a dict has the method. *)
Definition py_get (v : json) (k : str) (default : json) : result json :=
  match v with
  | JDict kvs => Ok (dict_get k default kvs)
  | _ => Raise AttributeError
  end.

Definition is_the_str (k : str) (v : json) : bool :=
  match v with JStr s => str_eqb s k | _ => false end.

(** [k in v] for a string [k]: key of a dict, element of a list, substring
    of a string; the other values are not containers. *)
Definition py_in (k : str) (v : json) : result bool :=
  match v with
  | JDict kvs => Ok (has_key k kvs)
  | JList l => Ok (existsb (is_the_str k) l)
  | JStr s => Ok (contains k s)
  | _ => Raise TypeError
  end.

(** [v[k]] for a string [k]. *)
Definition py_index (v : json) (k : str) : result json :=
  match v with
  | JDict kvs =>
      match lookup_key k kvs with
      | Some x => Ok x
      | None => Raise KeyError
      end
  | _ => Raise TypeError
  end.

(** [for x in v]: the sequence a loop goes through. *)
Definition py_iter (v : json) : result (list json) :=
  match v with
  | JList l => Ok l
  | JDict kvs => Ok (map (fun kv => JStr (fst kv)) kvs)
  | JStr s => Ok (map (fun c => JStr [c]) s)
  | _ => Raise TypeError
  end.

(** ** Text Escaper (source lines 6-12) *)

Definition reserved (c : char) : bool :=
  existsb (N.eqb c) (lit "&%$#_{}").

Definition escape_latex (text : json) : str :=
  match text with
  | JStr s => re_sub_class reserved (fun g1 => BACKSLASH :: [g1]) s
  | _ => []
  end.

(** The reading of the specification: a marker that stands immediately
    before a reserved character is the one the escaper put there;
    [strip_markers] takes those away and nothing else. *)
Fixpoint strip_markers (s : str) : str :=
  match s with
  | [] => []
  | c :: rest =>
      match rest with
      | d :: rest' =>
          if (c =? BACKSLASH) && reserved d then d :: strip_markers rest'
          else c :: strip_markers rest
      | [] => [c]
      end
  end.

(** ** Math-Block Formatter (source lines 14-29) *)

(** The text between the delimiters of the result. *)
Definition unwrap_delimiters (s : str) : str :=
  let text := strip s in
  let text := strip (re_sub_unwrap (lit "\[") (lit "\]") text) in
  let text := strip (re_sub_unwrap (lit "\(") (lit "\)") text) in
  let text := strip (re_sub_unwrap (lit "$$") (lit "$$") text) in
  let text := strip (re_sub_unwrap (lit "$") (lit "$") text) in
  text.

Definition format_tex_display_math (text : json) : str :=
  match text with
  | JStr s => lit "\[ " ++ unwrap_delimiters s ++ lit " \]"
  | _ => []
  end.

(** ** What the source takes from its environment

    [str()] of a float and [repr()] of a string (met when a list or a dict
    is put in an f-string) and the JSON parser are library code; the
    development is parametric in them. *)
Class PyEnv := {
  float_repr : float -> str;
  str_repr : str -> str;
  json_loads : str -> result json
}.

Definition join (sep : str) (parts : list str) : str :=
  match parts with
  | [] => []
  | p :: ps => p ++ flat_map (fun q => sep ++ q) ps
  end.

Section Report.
Context `{PyEnv}.

(** [repr(v)] *)
Fixpoint py_repr (v : json) : str :=
  match v with
  | JNull => lit "None"
  | JBool true => lit "True"
  | JBool false => lit "False"
  | JInt z => str_of_Z z
  | JFloat f => float_repr f
  | JStr s => str_repr s
  | JList l => lit "[" ++ join (lit ", ") (map py_repr l) ++ lit "]"
  | JDict kvs =>
      lit "{"
      ++ join (lit ", ")
           (map (fun kv : str * json =>
                   let (k, x) := kv in str_repr k ++ lit ": " ++ py_repr x) kvs)
      ++ lit "}"
  end.

(** [str(v)], what an f-string puts for [{v}]. *)
Definition py_str (v : json) : str :=
  match v with
  | JStr s => s
  | _ => py_repr v
  end.

End Report.

(** A literal followed by a newline. *)
Definition line (s : String.string) : str := lit s ++ [NL].

(** ** Brace repair (source lines 204-213 and 262-269) *)

(** [v.count(c)] for a one-character string [c]. *)
Definition py_count (v : json) (c : char) : result nat :=
  match v with
  | JStr s => Ok (count_char c s)
  | JList l => Ok (length (filter (fun x => is_the_str [c] x = true) l))
  | _ => Raise AttributeError
  end.

(** [v += t] for a string [t]. *)
Definition py_iadd (v : json) (t : str) : result json :=
  match v with
  | JStr s => Ok (JStr (s ++ t))
  | JList l => Ok (JList (l ++ map (fun c => JStr [c]) t))
  | _ => Raise TypeError
  end.

Definition repair_boxed (solution : json) : result json :=
  boxed ← py_in (lit "\boxed{") solution;
  if boxed : bool then
    open_count ← py_count solution OPEN_BRACE;
    close_count ← py_count solution CLOSE_BRACE;
    if negb (open_count =? close_count)%nat then
      if (close_count <? open_count)%nat then
        py_iadd solution (repeat CLOSE_BRACE (open_count - close_count))
      else Ok solution
    else Ok solution
  else Ok solution.

Section Renderer.
Context `{PyEnv}.

(** ** One critique subsection (source lines 141-183) *)

(** The body of the loop over the issues. *)
Definition format_issue (issue : json) : result str :=
  finding ← py_get issue (lit "finding") (JStr []);
  suggestion ← py_get issue (lit "suggestion") (JStr []);
  mret (lit "\item \textbf{Finding:} " ++ py_str finding ++ line "\\"
        ++ lit "\textbf{Suggestion:} " ++ py_str suggestion ++ [NL]).

Fixpoint format_issues (issues : list json) : result str :=
  match issues with
  | [] => mret []
  | issue :: rest =>
      t ← format_issue issue;
      ts ← format_issues rest;
      mret (t ++ ts)
  end.

Definition critique_status (critique_type : str) (critique_data : list (str * json))
  : json * str :=
  if str_eqb critique_type (lit "self_containment") then
    let status := dict_get (lit "is_self_contained") (JBool false) critique_data in
    (status, if truthy status then lit "Self-contained" else lit "Not self-contained")
  else if str_eqb critique_type (lit "difficulty") then
    let status := dict_get (lit "is_non_trivial") (JBool false) critique_data in
    (status, if truthy status then lit "Non-trivial" else lit "Trivial")
  else if str_eqb critique_type (lit "useful_derivation") then
    let status := dict_get (lit "is_useful_derivation") (JBool false) critique_data in
    (status, if truthy status then lit "Useful" else lit "Useless")
  else (JBool false, lit "Unknown").

Definition format_critique_section (critique_type : str) (critique_data : json)
  : result str :=
  match critique_data with
  | JDict d =>
      if negb (has_key (lit "error") d) then
        let (status, status_text) := critique_status critique_type d in
        let color := if truthy status then lit "pass" else lit "fail" in
        let tex := lit "\textcolor{" ++ color ++ lit "}{\textbf{Status: "
                   ++ status_text ++ lit "}}" ++ [NL; NL] in
        let critique_text := dict_get (lit "critique") (JStr (lit "No critique provided")) d in
        let tex := tex ++ py_str critique_text ++ [NL; NL] in
        let issues := dict_get (lit "issues") (JList []) d in
        if truthy issues then
          items ← py_iter issues;
          body ← format_issues items;
          mret (tex ++ line "\textbf{Issues found:}" ++ line "\begin{itemize}"
                ++ body ++ line "\end{itemize}")
        else mret tex
      else mret (lit "\textcolor{fail}{\textbf{Error parsing critique}}" ++ [NL; NL])
  | _ => mret (lit "\textcolor{fail}{\textbf{Error parsing critique}}" ++ [NL; NL])
  end.

(** ** One record (the loop body of [generate_critiques_section], source
    lines 189-278), cut where the source has its comments. *)

(** Lines 190-193: the heading. *)
Definition render_heading (i : nat) (critique_entry : json) : result str :=
  paper ← py_get critique_entry (lit "paper_id") (JStr (lit "N/A"));
  let paper_id := escape_latex paper in
  problem_index ← py_get critique_entry (lit "problem_index") (JInt 0);
  mret (lit "\subsection*{Problem " ++ str_of_Z (Z.of_nat i + 1)
        ++ lit " (Paper: " ++ paper_id ++ lit ", Index: " ++ py_str problem_index
        ++ lit ")}" ++ [NL; NL]).

(** Lines 195-215: the original problem and its solution. *)
Definition render_original (critique_entry : json) : result str :=
  original ← py_get critique_entry (lit "original_problem") (JDict []);
  problem_statement ← py_get original (lit "problem_statement")
                        (JStr (lit "No problem statement"));
  final_solution ← py_get original (lit "final_solution") (JStr (lit "No solution"));
  final_solution ← repair_boxed final_solution;
  mret (line "\subsubsection*{Original Problem Statement}"
        ++ py_str problem_statement ++ [NL; NL]
        ++ line "\subsubsection*{Original Solution}"
        ++ format_tex_display_math final_solution ++ [NL; NL]).

(** One of the three [if ... in critiques:] blocks of lines 222-237. *)
Definition render_critique (critiques : json) (critique_type : str) (heading : str)
  : result str :=
  present ← py_in critique_type critiques;
  if present : bool then
    critique_data ← py_index critiques critique_type;
    body ← format_critique_section critique_type critique_data;
    mret (heading ++ [NL] ++ body ++ [NL])
  else mret [].

(** Lines 217-237. *)
Definition render_critiques (critique_entry : json) : result str :=
  critiques ← py_get critique_entry (lit "critiques") (JDict []);
  sc ← render_critique critiques (lit "self_containment")
         (lit "\paragraph*{Self-Containment Critique:}");
  df ← render_critique critiques (lit "difficulty")
         (lit "\paragraph*{Difficulty Critique:}");
  ud ← render_critique critiques (lit "useful_derivation")
         (lit "\paragraph*{Useful Derivation Critique:}");
  mret (line "\subsubsection*{Critiques}" ++ sc ++ df ++ ud).

(** Lines 250-274: the refined problem, under its heading. *)
Definition render_refined (refined : json) : result str :=
  match refined with
  | JDict d =>
      if negb (has_key (lit "error") d) then
        let problem_key :=
          if has_key (lit "problem_statement") d then lit "problem_statement"
          else lit "question" in
        let solution_key :=
          if has_key (lit "final_solution") d then lit "final_solution"
          else lit "answer" in
        let refined_problem :=
          dict_get problem_key (JStr (lit "No refined problem statement")) d in
        let refined_solution := dict_get solution_key (JStr (lit "No solution")) d in
        refined_solution ← repair_boxed refined_solution;
        mret (line "\paragraph*{Refined Problem Statement:}"
              ++ py_str refined_problem ++ [NL; NL]
              ++ line "\paragraph*{Refined Solution:}"
              ++ format_tex_display_math refined_solution ++ [NL; NL])
      else mret (lit "\textcolor{fail}{\textbf{Error refining problem}}" ++ [NL; NL])
  | _ => mret (lit "\textcolor{fail}{\textbf{Error refining problem}}" ++ [NL; NL])
  end.

Definition STATUS_HEADING : str := line "\subsubsection*{Problem Status}".
Definition REFINED_HEADING : str := line "\subsubsection*{Refined Problem}".

Definition removal_notice (reason : json) : str :=
  lit "\textcolor{fail}{\textbf{REMOVED: " ++ escape_latex reason ++ lit "}}" ++ [NL; NL].

Definition EXCLUSION_NOTICE : str :=
  lit "\textcolor{fail}{\textbf{EXCLUDED: Trivial problem - refinement failed}}"
  ++ [NL; NL].

(** Lines 239-276: the outcome. *)
Definition render_outcome (critique_entry : json) : result str :=
  refined ← py_get critique_entry (lit "refined_problem") (JDict []);
  is_removed ← py_get critique_entry (lit "removed") (JBool false);
  included_in_dataset ← py_get critique_entry (lit "included_in_dataset") (JBool true);
  if truthy is_removed then
    reason ← py_get critique_entry (lit "removal_reason") (JStr (lit "Marked for removal"));
    mret (STATUS_HEADING ++ removal_notice reason)
  else if negb (truthy included_in_dataset) then
    mret (STATUS_HEADING ++ EXCLUSION_NOTICE)
  else
    body ← render_refined refined;
    mret (REFINED_HEADING ++ body).

Definition render_entry (i : nat) (critique_entry : json) : result str :=
  heading ← render_heading i critique_entry;
  original ← render_original critique_entry;
  critiques ← render_critiques critique_entry;
  outcome ← render_outcome critique_entry;
  mret (heading ++ original ++ critiques ++ outcome ++ line "\newpage").

(** The loop over [enumerate(critiques_data)], from position [i]. *)
Fixpoint render_entries (i : nat) (entries : list json) : result str :=
  match entries with
  | [] => mret []
  | critique_entry :: rest =>
      t ← render_entry i critique_entry;
      ts ← render_entries (S i) rest;
      mret (t ++ ts)
  end.

(** ** Record Renderer (source lines 185-280) *)
Definition generate_critiques_section (critiques_data : json) : result str :=
  entries ← py_iter critiques_data;
  body ← render_entries 0 entries;
  mret (lit "\section*{Problem Details}" ++ [NL; NL] ++ body).

End Renderer.

(** ** Summary Tabulator (source lines 59-139) *)

(** The counters of the categories, as the dictionaries of lines 61-66
    have them. *)
Record pass_fail := { n_pass : nat; n_fail : nat }.
Record pass_fail_removed := { r_pass : nat; r_fail : nat; r_removed : nat }.
Record success_fail := { n_success : nat; n_failure : nat }.

Record stats := {
  self_containment : pass_fail;
  difficulty : pass_fail_removed;
  useful_derivation : pass_fail_removed;
  refinement : success_fail
}.

Definition initial_stats : stats :=
  {| self_containment := {| n_pass := 0; n_fail := 0 |};
     difficulty := {| r_pass := 0; r_fail := 0; r_removed := 0 |};
     useful_derivation := {| r_pass := 0; r_fail := 0; r_removed := 0 |};
     refinement := {| n_success := 0; n_failure := 0 |} |}.

Definition incr_pass (c : pass_fail_removed) : pass_fail_removed :=
  {| r_pass := S (r_pass c); r_fail := r_fail c; r_removed := r_removed c |}.
Definition incr_fail (c : pass_fail_removed) : pass_fail_removed :=
  {| r_pass := r_pass c; r_fail := S (r_fail c); r_removed := r_removed c |}.
Definition incr_removed (c : pass_fail_removed) : pass_fail_removed :=
  {| r_pass := r_pass c; r_fail := r_fail c; r_removed := S (r_removed c) |}.

(** [k in critiques and isinstance(critiques[k], dict)]: the critique
    object when the test holds. *)
Definition critique_object (critiques : json) (k : str)
  : result (option (list (str * json))) :=
  present ← py_in k critiques;
  if present : bool then
    v ← py_index critiques k;
    mret (match v with JDict d => Some d | _ => None end)
  else mret None.

(** Lines 72-76. *)
Definition tally_self_containment (critiques : json) (c : pass_fail)
  : result pass_fail :=
  o ← critique_object critiques (lit "self_containment");
  match o with
  | Some d =>
      if truthy (dict_get (lit "is_self_contained") (JBool false) d)
      then mret {| n_pass := S (n_pass c); n_fail := n_fail c |}
      else mret {| n_pass := n_pass c; n_fail := S (n_fail c) |}
  | None => mret c
  end.

(** Lines 79-85. *)
Definition tally_difficulty (critiques : json) (is_removed : json)
    (c : pass_fail_removed) : result pass_fail_removed :=
  o ← critique_object critiques (lit "difficulty");
  match o with
  | Some d =>
      if truthy is_removed then mret (incr_removed c)
      else if truthy (dict_get (lit "is_non_trivial") (JBool false) d)
      then mret (incr_pass c) else mret (incr_fail c)
  | None => mret c
  end.

(** Lines 87-93. *)
Definition tally_useful_derivation (critiques : json) (is_removed : json)
    (c : pass_fail_removed) : result pass_fail_removed :=
  o ← critique_object critiques (lit "useful_derivation");
  match o with
  | Some d =>
      if truthy is_removed
         && negb (truthy (dict_get (lit "is_useful_derivation") (JBool true) d))
      then mret (incr_removed c)
      else if truthy (dict_get (lit "is_useful_derivation") (JBool false) d)
      then mret (incr_pass c) else mret (incr_fail c)
  | None => mret c
  end.

(** Lines 96-101. *)
Definition tally_refinement (critique_entry : json) (is_removed : json)
    (c : success_fail) : result success_fail :=
  if negb (truthy is_removed) then
    refined ← py_get critique_entry (lit "refined_problem") (JDict []);
    match refined with
    | JDict d =>
        if negb (has_key (lit "error") d)
        then mret {| n_success := S (n_success c); n_failure := n_failure c |}
        else mret {| n_success := n_success c; n_failure := S (n_failure c) |}
    | _ => mret {| n_success := n_success c; n_failure := S (n_failure c) |}
    end
  else mret c.

(** The loop body of lines 67-101. *)
Definition tally_entry (st : stats) (critique_entry : json) : result stats :=
  critiques ← py_get critique_entry (lit "critiques") (JDict []);
  is_removed ← py_get critique_entry (lit "removed") (JBool false);
  sc ← tally_self_containment critiques (self_containment st);
  df ← tally_difficulty critiques is_removed (difficulty st);
  ud ← tally_useful_derivation critiques is_removed (useful_derivation st);
  rf ← tally_refinement critique_entry is_removed (refinement st);
  mret {| self_containment := sc; difficulty := df;
          useful_derivation := ud; refinement := rf |}.

Fixpoint tally_entries (st : stats) (entries : list json) : result stats :=
  match entries with
  | [] => mret st
  | critique_entry :: rest =>
      st' ← tally_entry st critique_entry;
      tally_entries st' rest
  end.

(** The statistics the loop ends with. *)
Definition collect_stats (critiques_data : json) : result stats :=
  entries ← py_iter critiques_data;
  tally_entries initial_stats entries.

(** *** The pass rate

    [pass_count / total * 100] is computed in binary64, which the
    primitive floats are; the conversion of a count is exact below 2^53. *)
Definition float_of_nat (n : nat) : float :=
  PrimFloat.of_uint63 (Uint63.of_Z (Z.of_nat n)).

Definition round_half_even (n d : Z) : Z :=
  let q := (n / d)%Z in
  let r := (n mod d)%Z in
  if (2 * r <? d)%Z then q
  else if (d <? 2 * r)%Z then (q + 1)%Z
  else if Z.even q then q else (q + 1)%Z.

(** The value [m * 2^e] in tenths, rounded to nearest, ties to even. *)
Definition tenths (m : positive) (e : Z) : Z :=
  if (0 <=? e)%Z then (10 * Z.pos m * 2 ^ e)%Z
  else round_half_even (10 * Z.pos m) (2 ^ (- e)).

(** [format(x, '.1f')]: the exact value of [x] to one decimal place. *)
Definition format_1f (x : float) : str :=
  match Prim2SF x with
  | S754_zero s => (if s then lit "-" else []) ++ lit "0.0"
  | S754_infinity s => (if s then lit "-" else []) ++ lit "inf"
  | S754_nan => lit "nan"
  | S754_finite s m e =>
      (if s then lit "-" else [])
      ++ str_of_Z (tenths m e / 10) ++ lit "." ++ str_of_Z (tenths m e mod 10)
  end.

(** [pass_count / total * 100] *)
Definition percentage (pass_count total : nat) : float :=
  PrimFloat.mul (PrimFloat.div (float_of_nat pass_count) (float_of_nat total))
    (float_of_nat 100).

(** Lines 129-130. *)
Definition pass_rate (pass_count total : nat) : str :=
  if (0 <? total)%nat then
    format_1f (percentage pass_count total) ++ lit "\%"
  else lit "N/A".

(** What one pass of the loop of lines 117-132 reads from [stats]. *)
Record row := {
  type_name : str;
  pass_count : nat;
  fail_count : nat;
  removed_count : nat
}.

(** [critique_type.replace("_", " ").title()], escaped. *)
Definition critique_type_name (critique_type : str) : str :=
  escape_latex (JStr (title (replace_char 95 32 critique_type))).

(** The [else] branch of lines 123-127 for a dictionary with no
    ["removed"] key, where [counts.get("removed", 0)] is 0. *)
Definition pass_fail_row (critique_type : str) (c : pass_fail) : row :=
  {| type_name := critique_type_name critique_type;
     pass_count := n_pass c;
     fail_count := n_fail c;
     removed_count := 0 |}.

(** The same branch for a dictionary with the key. *)
Definition critique_row (critique_type : str) (c : pass_fail_removed) : row :=
  {| type_name := critique_type_name critique_type;
     pass_count := r_pass c;
     fail_count := r_fail c;
     removed_count := r_removed c |}.

(** Lines 118-122. *)
Definition refinement_row (c : success_fail) : row :=
  {| type_name := lit "Refinement Success";
     pass_count := n_success c;
     fail_count := n_failure c;
     removed_count := 0 |}.

(** [stats.items()], in insertion order. *)
Definition summary_rows (st : stats) : list row :=
  [ pass_fail_row (lit "self_containment") (self_containment st);
    critique_row (lit "difficulty") (difficulty st);
    critique_row (lit "useful_derivation") (useful_derivation st);
    refinement_row (refinement st) ].

Definition row_total (r : row) : nat :=
  (pass_count r + fail_count r + removed_count r)%nat.

Definition row_rate (r : row) : str := pass_rate (pass_count r) (row_total r).

Definition nat_str (n : nat) : str := str_of_Z (Z.of_nat n).

Definition render_row (r : row) : str :=
  type_name r ++ lit " & " ++ nat_str (pass_count r) ++ lit " & "
  ++ nat_str (fail_count r) ++ lit " & " ++ nat_str (removed_count r)
  ++ lit " & " ++ row_rate r ++ line " \\".

Definition SUMMARY_HEAD : str := lit "
\section*{Summary Statistics}
\begin{center}
\begin{longtable}{|l|c|c|c|c|}
\hline
\textbf{Critique Type} & \textbf{Pass} & \textbf{Fail} & \textbf{Removed} & \textbf{Pass Rate} \\
\hline
\endfirsthead
\hline
\endfoot
".

Definition SUMMARY_FOOT : str := lit "\hline
\end{longtable}
\end{center}
".

Definition render_summary (st : stats) : str :=
  SUMMARY_HEAD ++ flat_map render_row (summary_rows st) ++ SUMMARY_FOOT.

Definition generate_summary_table (critiques_data : json) : result str :=
  st ← collect_stats critiques_data;
  mret (render_summary st).

(** ** Document Assembler (source lines 31-57 and 282-308) *)

Definition TEX_TEMPLATE_HEADER : str := lit "
\documentclass[10pt]{article}
\usepackage[utf8]{inputenc}
\usepackage{amsmath}
\usepackage{amssymb}
\usepackage{geometry}
\usepackage{xcolor}
\usepackage{longtable}
\usepackage{array}
\usepackage{lmodern}

\geometry{a4paper, margin=1in}

\definecolor{pass}{HTML}{28a745}
\definecolor{fail}{HTML}{DC3545}

\title{Problem Refinement Critiques Report}
\author{Generated by script}
\date{\today}

\begin{document}
\maketitle
".

Definition TEX_TEMPLATE_FOOTER : str := lit "
\end{document}
".

(** The file system and the terminal.  A path names a file with its text
    or a directory; [creatable] tells where [open(path, 'w')] can make a new
    file. *)
Inductive node : Type :=
| File (content : str)
| Directory.

Record world := {
  files : gmap string node;
  creatable : string -> bool;
  printed : list str
}.

Definition print (msg : str) (w : world) : world :=
  {| files := files w; creatable := creatable w; printed := printed w ++ [msg] |}.

(** [os.path.exists(path)] *)
Definition path_exists (w : world) (path : string) : bool :=
  bool_decide (is_Some (files w !! path)).

(** [open(path, 'r').read()] *)
Definition read_file (w : world) (path : string) : result str :=
  match files w !! path with
  | Some (File content) => Ok content
  | Some Directory => Raise IsADirectoryError
  | None => Raise FileNotFoundError
  end.

Definition set_file (w : world) (path : string) (n : node) : world :=
  {| files := <[path := n]> (files w); creatable := creatable w; printed := printed w |}.

(** [open(path, 'w')]: the file is created, or emptied when it is there,
    before anything is written. *)
Definition open_for_writing (w : world) (path : string) : result world :=
  match files w !! path with
  | Some Directory => Raise IsADirectoryError
  | Some (File _) => Ok (set_file w path (File []))
  | None =>
      if creatable w path then Ok (set_file w path (File []))
      else Raise FileNotFoundError
  end.

(** The code points UTF-8 has no bytes for: the surrogates, which
    [json.load] lets through when the document escapes one alone. *)
Definition is_surrogate (c : char) : bool := (55296 <=? c) && (c <=? 57343).

Definition encodable (text : str) : bool :=
  forallb (fun c => negb (is_surrogate c)) text.

(** [with open(path, 'w', encoding='utf-8') as f: f.write(text)]: the world
    left behind, and the exception if there is one.  [f.write] encodes the
    text first and raises on a surrogate, with the file already emptied. *)
Definition write_file (w : world) (path : string) (text : str) : world * option exn :=
  match open_for_writing w path with
  | Raise e => (w, Some e)
  | Ok opened =>
      if encodable text then (set_file opened path (File text), None)
      else (opened, Some UnicodeEncodeError)
  end.

Section Assembler.
Context `{PyEnv}.

(** The text of the report for parsed data (lines 295-302). *)
Definition assemble (data : json) : result str :=
  summary_tex ← generate_summary_table data;
  critiques_section_tex ← generate_critiques_section data;
  mret (TEX_TEMPLATE_HEADER ++ summary_tex ++ critiques_section_tex
        ++ TEX_TEMPLATE_FOOTER).

(** The run: the world it leaves, and [Some e] when exception [e] comes
    out of it. *)
Definition export_critiques_to_tex (w : world) (critiques_file output_tex_file : string)
  : world * option exn :=
  if negb (path_exists w critiques_file) then
    (print (lit "Error: Critiques file not found at '" ++ lit critiques_file ++ lit "'") w,
     None)
  else
    let content :=
      text ← read_file w critiques_file;
      data ← json_loads text;
      assemble data in
    match content with
    | Raise e => (w, Some e)
    | Ok final_tex =>
        match write_file w output_tex_file final_tex with
        | (w', Some e) => (w', Some e)
        | (w', None) =>
            (print (lit "You can now compile this file using a LaTeX distribution (like pdflatex) to create a PDF.")
               (print (lit "LaTeX critiques report successfully generated at '"
                       ++ lit output_tex_file ++ lit "'") w'),
             None)
        end
    end.

End Assembler.

(** ** Notions the statements use *)

(** The escaper on the characters of a string. *)
Definition escape_str (s : str) : str :=
  re_sub_class reserved (fun g1 => BACKSLASH :: [g1]) s.

(** Nothing to take away at either end. *)
Definition stripped (t : str) : Prop := lstrip t = t /\ rstrip t = t.

(** The critique object of a category in a critiques mapping, when the
    key is there and its value is an object. *)
Definition critique_dict (k : str) (critiques : list (str * json))
  : option (list (str * json)) :=
  match lookup_key k critiques with
  | Some (JDict d) => Some d
  | _ => None
  end.

Definition total2 (c : pass_fail) : nat := (n_pass c + n_fail c)%nat.
Definition total3 (c : pass_fail_removed) : nat :=
  (r_pass c + r_fail c + r_removed c)%nat.

(** A refined problem the tabulator takes as a success: the key is
    missing (the lookup then defaults to an empty object) or its value is an
    object with no ["error"] key. *)
Definition refinement_succeeds (critique_entry : list (str * json)) : bool :=
  match lookup_key (lit "refined_problem") critique_entry with
  | None => true
  | Some (JDict d) => negb (has_key (lit "error") d)
  | Some _ => false
  end.

(** The solution of a refined problem, under the key the renderer picks. *)
Definition refined_solution (refined : list (str * json)) : json :=
  dict_get (if has_key (lit "final_solution") refined
            then lit "final_solution" else lit "answer")
    (JStr (lit "No solution")) refined.

(** *** Records of the expected shape (section 3 of the specification)

    Keys may be missing anywhere; what is there has the type the data
    model gives it. *)

(** A refined problem: not an object or marked as an error (both render
    the error notice), or an object whose solution is a string. *)
Definition refined_ok (refined : json) : bool :=
  match refined with
  | JDict d => has_key (lit "error") d || is_str (refined_solution d)
  | _ => true
  end.

(** The issues of a critique: a list of objects, or an empty value. *)
Definition issues_ok (issues : json) : bool :=
  match issues with
  | JList l => forallb is_dict l
  | _ => negb (truthy issues)
  end.

Definition critique_ok (critique_data : json) : bool :=
  match critique_data with
  | JDict d => has_key (lit "error") d || issues_ok (dict_get (lit "issues") (JList []) d)
  | _ => true
  end.

Definition critique_at_ok (critiques : list (str * json)) (k : str) : bool :=
  match lookup_key k critiques with
  | Some v => critique_ok v
  | None => true
  end.

Definition critiques_ok (critiques : json) : bool :=
  match critiques with
  | JDict c =>
      critique_at_ok c (lit "self_containment")
      && critique_at_ok c (lit "difficulty")
      && critique_at_ok c (lit "useful_derivation")
  | _ => false
  end.

Definition original_ok (original : json) : bool :=
  match original with
  | JDict o => is_str (dict_get (lit "final_solution") (JStr (lit "No solution")) o)
  | _ => false
  end.

Definition well_shaped (critique_entry : json) : bool :=
  match critique_entry with
  | JDict e =>
      original_ok (dict_get (lit "original_problem") (JDict []) e)
      && critiques_ok (dict_get (lit "critiques") (JDict []) e)
      && refined_ok (dict_get (lit "refined_problem") (JDict []) e)
  | _ => false
  end.

(** An environment for the examples: strings are shown between quotes,
    and the parser knows two documents. *)
Definition example_env : PyEnv :=
  {| float_repr := fun _ => lit "0.5";
     str_repr := fun s => lit "'" ++ s ++ lit "'";
     json_loads := fun text =>
       if str_eqb text (lit "[]") then Ok (JList [])
       else if str_eqb text (lit "[1]") then Ok (JList [JInt 1])
       else Raise JSONDecodeError |}.

(** The rendered rate in tenths of a percent, for a rate that is a
    finite number and not negative. *)
Definition rate_tenths (pass_count total : nat) : option Z :=
  match Prim2SF (percentage pass_count total) with
  | S754_zero _ => Some 0%Z
  | S754_finite false m e => Some (tenths m e)
  | _ => None
  end.

(** The tenths [d] are a nearest tenth of [100 * pass_count / total]. *)
Definition nearest_tenth (pass_count total : nat) : bool :=
  match rate_tenths pass_count total with
  | Some d =>
      (Z.abs (2 * d * Z.of_nat total - 2000 * Z.of_nat pass_count)
       <=? Z.of_nat total)%Z
  | None => false
  end.

(** The record of the end-to-end property of the specification. *)
Definition end_to_end_record : json :=
  JDict [ (lit "paper_id", JStr (lit "p1"));
          (lit "problem_index", JInt 0);
          (lit "original_problem", JDict [ (lit "final_solution", JStr (lit "$x=1$")) ]);
          (lit "removed", JBool false);
          (lit "included_in_dataset", JBool true);
          (lit "refined_problem",
            JDict [ (lit "problem_statement", JStr (lit "Q"));
                    (lit "final_solution", JStr (lit "\[y=2\]")) ]) ].

(** A record with a self-containment and a difficulty verdict. *)
Definition verdict_record (self_contained removed : bool) : json :=
  JDict [ (lit "removed", JBool removed);
          (lit "critiques",
            JDict [ (lit "self_containment",
                      JDict [ (lit "is_self_contained", JBool self_contained) ]);
                    (lit "difficulty",
                      JDict [ (lit "is_non_trivial", JBool false) ]) ]) ].

(** Worlds for the examples. *)
Definition world_with_bad_records : world :=
  {| files := {[ "critiques.json"%string := File (lit "[1]") ]};
     creatable := fun _ => true;
     printed := [] |}.

Definition world_with_directory : world :=
  {| files := {[ "critiques.json"%string := Directory ]};
     creatable := fun _ => true;
     printed := [] |}.

Definition world_with_no_records : world :=
  {| files := {[ "critiques.json"%string := File (lit "[]") ]};
     creatable := fun _ => true;
     printed := [] |}.

(** Records for the examples. *)
Definition removed_useful_record : json :=
  JDict [ (lit "removed", JBool true);
          (lit "critiques",
            JDict [ (lit "useful_derivation",
                      JDict [ (lit "is_useful_derivation", JBool true) ]) ]) ].

Definition removed_useless_record : json :=
  JDict [ (lit "removed", JBool true);
          (lit "critiques",
            JDict [ (lit "useful_derivation",
                      JDict [ (lit "is_useful_derivation", JBool false) ]) ]) ].

(** The statement of a refined problem, under the key the renderer picks. *)
Definition refined_statement (refined : list (str * json)) : json :=
  dict_get (if has_key (lit "problem_statement") refined
            then lit "problem_statement" else lit "question")
    (JStr (lit "No refined problem statement")) refined.

(** A refined problem the renderer gives up on: not an object, or an
    object with an ["error"] key. *)
Definition refinement_failed (refined : json) : bool :=
  match refined with
  | JDict d => has_key (lit "error") d
  | _ => true
  end.

(** The fields of a complete record. *)
Definition end_to_end_fields : list (str * json) :=
  [ (lit "paper_id", JStr (lit "p1"));
    (lit "problem_index", JInt 0);
    (lit "original_problem", JDict [ (lit "final_solution", JStr (lit "$x=1$")) ]);
    (lit "removed", JBool false);
    (lit "included_in_dataset", JBool true);
    (lit "refined_problem",
      JDict [ (lit "problem_statement", JStr (lit "Q"));
              (lit "final_solution", JStr (lit "\[y=2\]")) ]) ].

(** *** The rate, checked row by row *)







(** *** A run with records *)

Definition quoted (s : str) : str := [34] ++ s ++ [34].

(** Two documents: one record with a paper id, and the same with a lone
    surrogate, written as an escape, for the id. *)
Definition one_record_text : str :=
  lit "[{" ++ quoted (lit "paper_id") ++ lit ": " ++ quoted (lit "p_1") ++ lit "}]".

Definition surrogate_record_text : str :=
  lit "[{" ++ quoted (lit "paper_id") ++ lit ": " ++ quoted (lit "\ud800") ++ lit "}]".

(** An environment whose parser knows these two documents. *)
Definition report_env : PyEnv :=
  {| float_repr := fun _ => lit "0.5";
     str_repr := fun s => lit "'" ++ s ++ lit "'";
     json_loads := fun text =>
       if str_eqb text one_record_text
       then Ok (JList [JDict [ (lit "paper_id", JStr (lit "p_1")) ]])
       else if str_eqb text surrogate_record_text
       then Ok (JList [JDict [ (lit "paper_id", JStr [55296]) ]])
       else Raise JSONDecodeError |}.

Definition world_with_one_record : world :=
  {| files := {[ "critiques.json"%string := File one_record_text ]};
     creatable := fun _ => true;
     printed := [] |}.

Definition world_with_surrogate : world :=
  {| files := {[ "critiques.json"%string := File surrogate_record_text ]};
     creatable := fun _ => true;
     printed := [] |}.

(** *** Notions for the further properties *)

(** The record has an object for category [k], as the tabulator tests it. *)
Definition has_critique (k : str) (critique_entry : json) : bool :=
  match critique_entry with
  | JDict e =>
      match critique_object (dict_get (lit "critiques") (JDict []) e) k with
      | Ok (Some _) => true
      | _ => false
      end
  | _ => false
  end.

Definition entry_removed (critique_entry : json) : bool :=
  match critique_entry with
  | JDict e => truthy (dict_get (lit "removed") (JBool false) e)
  | _ => false
  end.

Definition count_entries (f : json -> bool) (entries : list json) : nat :=
  length (List.filter f entries).

Definition unit_of (b : bool) : nat := if b then 1%nat else 0%nat.

(** Sums of counters, field by field. *)
Definition pass_fail_plus (a b : pass_fail) : pass_fail :=
  {| n_pass := n_pass a + n_pass b; n_fail := n_fail a + n_fail b |}.

Definition pass_fail_removed_plus (a b : pass_fail_removed) : pass_fail_removed :=
  {| r_pass := r_pass a + r_pass b; r_fail := r_fail a + r_fail b;
     r_removed := r_removed a + r_removed b |}.

Definition success_fail_plus (a b : success_fail) : success_fail :=
  {| n_success := n_success a + n_success b; n_failure := n_failure a + n_failure b |}.

Definition stats_plus (a b : stats) : stats :=
  {| self_containment := pass_fail_plus (self_containment a) (self_containment b);
     difficulty := pass_fail_removed_plus (difficulty a) (difficulty b);
     useful_derivation := pass_fail_removed_plus (useful_derivation a) (useful_derivation b);
     refinement := success_fail_plus (refinement a) (refinement b) |}.

(** The first of two keys that is there. *)
Definition first_present (k1 k2 : str) (d : list (str * json)) : option json :=
  match lookup_key k1 d with
  | Some v => Some v
  | None => lookup_key k2 d
  end.

Definition REFINE_ERROR_NOTICE : str :=
  lit "\textcolor{fail}{\textbf{Error refining problem}}" ++ [NL; NL].

(** * Properties *)

(** ** Strings *)

Lemma lit_backslash_not_reserved : reserved BACKSLASH = false.
Proof. reflexivity. Qed.

Lemma count_char_app c (a b : str) :
  count_char c (a ++ b) = (count_char c a + count_char c b)%nat.
Proof. unfold count_char. apply count_occ_app. Qed.

Lemma count_char_repeat_same c n : count_char c (repeat c n) = n.
Proof. unfold count_char. now apply count_occ_repeat_eq. Qed.

Lemma count_char_repeat_other c d n : d <> c -> count_char c (repeat d n) = 0%nat.
Proof. intros Hne. unfold count_char. now apply count_occ_repeat_neq. Qed.

(** ** Text Escaper *)

Lemma escape_str_cons c s :
  escape_str (c :: s) =
  if reserved c then BACKSLASH :: c :: escape_str s else c :: escape_str s.
Proof. unfold escape_str, re_sub_class. simpl. now destruct (reserved c). Qed.

Lemma escape_str_nil_inv s : escape_str s = [] -> s = [].
Proof.
  destruct s as [|c s]; [easy|].
  rewrite escape_str_cons. now destruct (reserved c).
Qed.

(** The output never begins with a bare reserved character. *)
Lemma escape_str_head s c rest : escape_str s = c :: rest -> reserved c = false.
Proof.
  destruct s as [|d s]; [easy|].
  rewrite escape_str_cons.
  destruct (reserved d) eqn:Hd; intros [= <- _]; [reflexivity | exact Hd].
Qed.

Lemma strip_markers_escape s : strip_markers (escape_str s) = s.
Proof.
  induction s as [|c s IH]; [reflexivity|].
  rewrite escape_str_cons.
  destruct (reserved c) eqn:Hc.
  - cbn [strip_markers]. rewrite N.eqb_refl, Hc. cbn. now rewrite IH.
  - destruct (escape_str s) as [|d rest] eqn:He.
    + apply escape_str_nil_inv in He. now subst.
    + cbn [strip_markers]. rewrite (escape_str_head _ _ _ He), andb_false_r.
      cbn [strip_markers] in IH. now rewrite IH.
Qed.

Lemma escape_str_length s :
  length (escape_str s) = (length s + length (List.filter reserved s))%nat.
Proof.
  induction s as [|c s IH]; [reflexivity|].
  rewrite escape_str_cons. cbn [List.filter].
  destruct (reserved c); cbn [length]; rewrite IH; lia.
Qed.

Lemma escape_str_marked s : forall i c,
  escape_str s !! i = Some c -> reserved c = true ->
  exists j, i = S j /\ escape_str s !! j = Some BACKSLASH.
Proof.
  induction s as [|d s IH]; intros i c Hi Hc; [now destruct i|].
  rewrite escape_str_cons in *.
  destruct (reserved d) eqn:Hd.
  - destruct i as [|[|i]]; cbn in Hi.
    + injection Hi as <-. now rewrite lit_backslash_not_reserved in Hc.
    + now exists 0%nat.
    + destruct (IH _ _ Hi Hc) as (j & -> & Hj). now exists (S (S j)).
  - destruct i as [|i]; cbn in Hi.
    + injection Hi as <-. congruence.
    + destruct (IH _ _ Hi Hc) as (j & -> & Hj). now exists (S j).
Qed.

(** C5.  A value that is not a string escapes to the empty string.  For a
    string, taking away the marker in front of each reserved character of
    the output gives the input back, so nothing else was altered; the
    output is longer than the input by the number of reserved characters,
    one marker each; and every reserved character of the output has a
    backslash immediately before it. *)
Theorem escape_latex_markers :
  (forall v, is_str v = false -> escape_latex v = []) /\
  (forall s,
     strip_markers (escape_latex (JStr s)) = s /\
     length (escape_latex (JStr s))
       = (length s + length (List.filter reserved s))%nat /\
     (forall i c, escape_latex (JStr s) !! i = Some c -> reserved c = true ->
        exists j, i = S j /\ escape_latex (JStr s) !! j = Some BACKSLASH)).
Proof.
  split.
  - intros v Hv. now destruct v.
  - intros s. change (escape_latex (JStr s)) with (escape_str s).
    split; [apply strip_markers_escape|].
    split; [apply escape_str_length | apply escape_str_marked].
Qed.

Lemma escape_latex_markers_witness :
  escape_latex (JInt 5) = [] /\
  exists j, 2%nat = S j /\ escape_latex (JStr (lit "a_b")) !! j = Some BACKSLASH.
Proof.
  split.
  - apply (proj1 escape_latex_markers). reflexivity.
  - apply (proj2 (proj2 (proj2 escape_latex_markers (lit "a_b"))) 2%nat 95);
      reflexivity.
Defined.

(** ** Brace repair *)

(** The repair on a string, with the method calls resolved. *)
Lemma repair_boxed_str (s : str) :
  repair_boxed (JStr s) =
  Ok (JStr (if contains (lit "\boxed{") s then
              if negb (count_char OPEN_BRACE s =? count_char CLOSE_BRACE s)%nat then
                if (count_char CLOSE_BRACE s <? count_char OPEN_BRACE s)%nat
                then s ++ repeat CLOSE_BRACE
                            (count_char OPEN_BRACE s - count_char CLOSE_BRACE s)
                else s
              else s
            else s)).
Proof.
  unfold repair_boxed, py_in, py_count, py_iadd, mbind, result_bind.
  destruct (contains (lit "\boxed{") s); [|reflexivity].
  destruct (negb _); [|reflexivity].
  now destruct (_ <? _)%nat.
Qed.

(** C7.  A string with the boxed-answer construct and [n] more open than
    close braces, [n] positive, gets exactly [n] closing braces at its end
    and is then balanced; a string without the construct, or with no such
    excess, is left as it is. *)
Theorem repair_boxed_balances (s : str) :
  (forall n,
     contains (lit "\boxed{") s = true ->
     count_char OPEN_BRACE s = (count_char CLOSE_BRACE s + n)%nat ->
     (0 < n)%nat ->
     repair_boxed (JStr s) = Ok (JStr (s ++ repeat CLOSE_BRACE n)) /\
     count_char OPEN_BRACE (s ++ repeat CLOSE_BRACE n)
       = count_char CLOSE_BRACE (s ++ repeat CLOSE_BRACE n)) /\
  (contains (lit "\boxed{") s = false \/
   (count_char OPEN_BRACE s <= count_char CLOSE_BRACE s)%nat ->
   repair_boxed (JStr s) = Ok (JStr s)).
Proof.
  split.
  - intros n Hb Hn Hpos. split.
    + rewrite repair_boxed_str, Hb.
      destruct (Nat.eqb_spec (count_char OPEN_BRACE s) (count_char CLOSE_BRACE s)) as [E|_];
        [lia|]. cbn [negb].
      destruct (Nat.ltb_spec (count_char CLOSE_BRACE s) (count_char OPEN_BRACE s)) as [_|E];
        [|lia].
      repeat f_equal. lia.
    + rewrite !count_char_app, count_char_repeat_same.
      rewrite count_char_repeat_other by discriminate. lia.
  - intros Hcase. rewrite repair_boxed_str.
    destruct (contains (lit "\boxed{") s) eqn:Hb; [|reflexivity].
    destruct Hcase as [|Hle]; [discriminate|].
    destruct (Nat.eqb_spec (count_char OPEN_BRACE s) (count_char CLOSE_BRACE s)) as [E|E];
      [reflexivity|]. cbn [negb].
    destruct (Nat.ltb_spec (count_char CLOSE_BRACE s) (count_char OPEN_BRACE s)) as [Hlt|_];
      [lia | reflexivity].
Qed.

Lemma repair_boxed_balances_witness :
  repair_boxed (JStr (lit "x = \boxed{\frac{1}{2}"))
    = Ok (JStr (lit "x = \boxed{\frac{1}{2}}")) /\
  repair_boxed (JStr (lit "{{x")) = Ok (JStr (lit "{{x")).
Proof.
  split.
  - apply (proj1 (repair_boxed_balances (lit "x = \boxed{\frac{1}{2}")) 1%nat);
      [reflexivity | reflexivity | lia].
  - apply (proj2 (repair_boxed_balances (lit "{{x"))). left. reflexivity.
Defined.

(** ** Math-Block Formatter *)

Section Strip.

Lemma lstrip_keeps c s : is_space c = false -> lstrip (c :: s) = c :: s.
Proof. intros Hc. cbn [lstrip]. now rewrite Hc. Qed.

Lemma lstrip_length s : (length (lstrip s) <= length s)%nat.
Proof.
  induction s as [|c s IH]; [reflexivity|].
  cbn [lstrip]. destruct (is_space c); cbn [length]; lia.
Qed.

Lemma lstrip_fixed_head c s : lstrip (c :: s) = c :: s -> is_space c = false.
Proof.
  cbn [lstrip]. destruct (is_space c); [|reflexivity].
  intros Heq. pose proof (lstrip_length s) as Hlen.
  rewrite Heq in Hlen. cbn [length] in Hlen. lia.
Qed.

Lemma lstrip_idem s : lstrip (lstrip s) = lstrip s.
Proof.
  induction s as [|c s IH]; [reflexivity|].
  cbn [lstrip]. destruct (is_space c) eqn:Hc; [exact IH|].
  now apply lstrip_keeps.
Qed.

Lemma lstrip_snoc s c : is_space c = false -> lstrip (s ++ [c]) = lstrip s ++ [c].
Proof.
  intros Hc. induction s as [|d s IH].
  - now apply lstrip_keeps.
  - cbn [app lstrip]. destruct (is_space d); [exact IH | reflexivity].
Qed.

Lemma rstrip_cons c s : is_space c = false -> rstrip (c :: s) = c :: rstrip s.
Proof.
  intros Hc. unfold rstrip. cbn [rev].
  rewrite lstrip_snoc by exact Hc. now rewrite rev_app_distr.
Qed.

Lemma rstrip_idem s : rstrip (rstrip s) = rstrip s.
Proof. unfold rstrip. now rewrite rev_involutive, lstrip_idem. Qed.

Lemma strip_stripped s : stripped (strip s).
Proof.
  unfold stripped, strip. split; [|apply rstrip_idem].
  pose proof (lstrip_idem s) as Hfix.
  destruct (lstrip s) as [|c t]; [reflexivity|].
  apply lstrip_fixed_head in Hfix.
  rewrite rstrip_cons by exact Hfix. now apply lstrip_keeps.
Qed.

Lemma strip_of_stripped t : stripped t -> strip t = t.
Proof. intros [Hl Hr]. unfold strip. now rewrite Hl. Qed.

(** A stripped text between two blanks strips to itself. *)
Lemma strip_padded t : stripped t -> strip (32 :: t ++ [32]) = t.
Proof.
  intros [Hl Hr]. unfold strip. cbn [lstrip].
  change (is_space 32) with true. cbn iota.
  destruct t as [|c t]; [reflexivity|].
  apply lstrip_fixed_head in Hl.
  change ((c :: t) ++ [32]) with (c :: (t ++ [32])).
  rewrite lstrip_keeps by exact Hl.
  change (c :: (t ++ [32])) with ((c :: t) ++ [32]).
  unfold rstrip in *. rewrite rev_app_distr. cbn [rev app lstrip].
  change (is_space 32) with true. cbn iota. exact Hr.
Qed.

End Strip.

Section Unwrap.

Lemma starts_with_app p s : starts_with p (p ++ s) = true.
Proof.
  induction p as [|c p IH]; [reflexivity|].
  cbn [app starts_with]. now rewrite N.eqb_refl.
Qed.

Lemma strip_prefix_app p s : strip_prefix p (p ++ s) = Some s.
Proof.
  unfold strip_prefix. rewrite starts_with_app. f_equal.
  now rewrite drop_app_length.
Qed.

Lemma strip_suffix_app suf s : strip_suffix suf (s ++ suf) = Some s.
Proof.
  unfold strip_suffix. rewrite rev_app_distr, strip_prefix_app.
  now rewrite rev_involutive.
Qed.

Lemma re_sub_unwrap_no_prefix op cl s :
  starts_with op s = false -> re_sub_unwrap op cl s = s.
Proof. intros Hp. unfold re_sub_unwrap, strip_prefix. now rewrite Hp. Qed.

Lemma re_sub_unwrap_wrapped op cl m :
  no_newline m = true -> re_sub_unwrap op cl (op ++ m ++ cl) = m.
Proof.
  intros Hm. unfold re_sub_unwrap.
  now rewrite strip_prefix_app, strip_suffix_app, Hm.
Qed.

Lemma no_newline_padded t : no_newline (32 :: t ++ [32]) = no_newline t.
Proof.
  unfold no_newline. cbn [forallb]. rewrite forallb_app. cbn.
  now rewrite andb_true_r.
Qed.

Lemma starts_with_dollars t :
  starts_with (lit "$") t = false -> starts_with (lit "$$") t = false.
Proof.
  destruct t as [|c t]; [reflexivity|].
  change (lit "$") with [36]. change (lit "$$") with [36; 36].
  cbn [starts_with]. now destruct (36 =? c).
Qed.

Lemma rstrip_keeps s c : is_space c = false -> rstrip (s ++ [c]) = s ++ [c].
Proof.
  intros Hc. unfold rstrip. rewrite rev_app_distr. cbn [rev app].
  rewrite lstrip_keeps by exact Hc. cbn [rev]. now rewrite rev_involutive.
Qed.

Lemma display_block_stripped t : stripped (lit "\[ " ++ t ++ lit " \]").
Proof.
  split; [reflexivity|].
  replace (lit "\[ " ++ t ++ lit " \]")
    with ((lit "\[ " ++ t ++ [32; 92]) ++ [93])
    by (now rewrite <- !app_assoc).
  now apply rstrip_keeps.
Qed.

(** The formatter finds the body of a block it made, when the body has no
    line break and no delimiter at its start. *)
Lemma unwrap_display_block t :
  stripped t ->
  no_newline t = true ->
  starts_with (lit "\(") t = false ->
  starts_with (lit "$") t = false ->
  unwrap_delimiters (lit "\[ " ++ t ++ lit " \]") = t.
Proof.
  intros Ht Hnl Hparen Hdollar. unfold unwrap_delimiters.
  rewrite (strip_of_stripped _ (display_block_stripped t)).
  replace (lit "\[ " ++ t ++ lit " \]")
    with (lit "\[" ++ (32 :: t ++ [32]) ++ lit "\]")
    by (cbn; now rewrite <- app_assoc).
  rewrite re_sub_unwrap_wrapped by (now rewrite no_newline_padded).
  rewrite (strip_padded _ Ht).
  rewrite (re_sub_unwrap_no_prefix _ _ _ Hparen), (strip_of_stripped _ Ht).
  rewrite (re_sub_unwrap_no_prefix _ _ _ (starts_with_dollars _ Hdollar)),
    (strip_of_stripped _ Ht).
  rewrite (re_sub_unwrap_no_prefix _ _ _ Hdollar).
  now apply strip_of_stripped.
Qed.

End Unwrap.

(** C6, as the code has it.  When the body of the formatted block has no
    line break and does not begin with an inline-math or dollar delimiter,
    formatting the block again gives the same block. *)
Theorem format_tex_display_math_twice (s : str) :
  no_newline (unwrap_delimiters s) = true ->
  starts_with (lit "\(") (unwrap_delimiters s) = false ->
  starts_with (lit "$") (unwrap_delimiters s) = false ->
  format_tex_display_math (JStr (format_tex_display_math (JStr s)))
  = format_tex_display_math (JStr s).
Proof.
  intros Hnl Hparen Hdollar. cbn [format_tex_display_math].
  rewrite unwrap_display_block; try assumption; [reflexivity|].
  unfold unwrap_delimiters. apply strip_stripped.
Qed.

Lemma format_tex_display_math_twice_witness :
  format_tex_display_math (JStr (format_tex_display_math (JStr (lit "\[ y=2 \]"))))
  = format_tex_display_math (JStr (lit "\[ y=2 \]")).
Proof.
  apply (format_tex_display_math_twice (lit "\[ y=2 \]")); reflexivity.
Defined.

(** C6 fails as stated, also on input delimited as a display block: a
    body that keeps an inner delimiter pair loses it at the second pass. *)
Lemma format_tex_display_math_not_idempotent :
  format_tex_display_math
    (JStr (format_tex_display_math (JStr (lit "\[$\(x\)$\]"))))
  <> format_tex_display_math (JStr (lit "\[$\(x\)$\]")).
Proof. vm_compute. discriminate. Qed.

(** What the two passes give there. *)
Example format_nested_once :
  format_tex_display_math (JStr (lit "\[$\(x\)$\]")) = lit "\[ \(x\) \]".
Proof. vm_compute. reflexivity. Qed.

Example format_nested_twice :
  format_tex_display_math (JStr (lit "\[ \(x\) \]")) = lit "\[ x \]".
Proof. vm_compute. reflexivity. Qed.

(** ** Summary Tabulator *)

Section Tally.

Lemma critique_object_dict c k :
  critique_object (JDict c) k = Ok (critique_dict k c).
Proof.
  unfold critique_object, critique_dict, py_in, py_index, has_key, mbind, result_bind.
  destruct (lookup_key k c) as [v|]; [|reflexivity]. now destruct v.
Qed.

(** Each category moves by at most one per record, whatever the record. *)
Lemma tally_self_containment_step critiques c c' :
  tally_self_containment critiques c = Ok c' ->
  (total2 c' <= S (total2 c))%nat.
Proof.
  unfold tally_self_containment, mbind, result_bind, mret, result_ret, total2.
  destruct (critique_object critiques _) as [[d|]|]; [| |discriminate].
  - destruct (truthy _); intros [= <-]; cbn; lia.
  - intros [= <-]. lia.
Qed.

Lemma tally_difficulty_step critiques r c c' :
  tally_difficulty critiques r c = Ok c' ->
  (total3 c' <= S (total3 c))%nat.
Proof.
  unfold tally_difficulty, mbind, result_bind, mret, result_ret, total3.
  destruct (critique_object critiques _) as [[d|]|]; [| |discriminate].
  - destruct (truthy r); [|destruct (truthy _)]; intros [= <-]; cbn; lia.
  - intros [= <-]. lia.
Qed.

Lemma tally_useful_derivation_step critiques r c c' :
  tally_useful_derivation critiques r c = Ok c' ->
  (total3 c' <= S (total3 c))%nat.
Proof.
  unfold tally_useful_derivation, mbind, result_bind, mret, result_ret, total3.
  destruct (critique_object critiques _) as [[d|]|]; [| |discriminate].
  - destruct (_ && _); [|destruct (truthy _)]; intros [= <-]; cbn; lia.
  - intros [= <-]. lia.
Qed.

(** What [tally_entry] returns is made of what its four steps return. *)
Lemma tally_entry_inv st e st' :
  tally_entry st e = Ok st' ->
  exists critiques is_removed,
    py_get e (lit "critiques") (JDict []) = Ok critiques /\
    py_get e (lit "removed") (JBool false) = Ok is_removed /\
    tally_self_containment critiques (self_containment st) = Ok (self_containment st') /\
    tally_difficulty critiques is_removed (difficulty st) = Ok (difficulty st') /\
    tally_useful_derivation critiques is_removed (useful_derivation st)
      = Ok (useful_derivation st') /\
    tally_refinement e is_removed (refinement st) = Ok (refinement st').
Proof.
  unfold tally_entry.
  destruct (py_get e (lit "critiques") _) as [critiques|] eqn:Hc; [|discriminate].
  destruct (py_get e (lit "removed") _) as [is_removed|] eqn:Hr; [|discriminate].
  cbn [mbind result_bind].
  destruct (tally_self_containment _ _) as [sc|] eqn:Hsc; [|discriminate].
  destruct (tally_difficulty _ _ _) as [df|] eqn:Hdf; [|discriminate].
  destruct (tally_useful_derivation _ _ _) as [ud|] eqn:Hud; [|discriminate].
  destruct (tally_refinement _ _ _) as [rf|] eqn:Hrf; [|discriminate].
  intros [= <-]. exists critiques, is_removed. now repeat split.
Qed.

Lemma tally_entry_step st e st' :
  tally_entry st e = Ok st' ->
  (total2 (self_containment st') <= S (total2 (self_containment st)))%nat /\
  (total3 (difficulty st') <= S (total3 (difficulty st)))%nat /\
  (total3 (useful_derivation st') <= S (total3 (useful_derivation st)))%nat.
Proof.
  intros Hst. apply tally_entry_inv in Hst as (cr & r & _ & _ & Hsc & Hdf & Hud & _).
  split; [|split].
  - exact (tally_self_containment_step _ _ _ Hsc).
  - exact (tally_difficulty_step _ _ _ _ Hdf).
  - exact (tally_useful_derivation_step _ _ _ _ Hud).
Qed.

Lemma tally_entries_bound entries : forall st st',
  tally_entries st entries = Ok st' ->
  (total2 (self_containment st') <= total2 (self_containment st) + length entries)%nat /\
  (total3 (difficulty st') <= total3 (difficulty st) + length entries)%nat /\
  (total3 (useful_derivation st')
     <= total3 (useful_derivation st) + length entries)%nat.
Proof.
  induction entries as [|e entries IH]; intros st st'.
  - intros [= <-]. cbn [length]. lia.
  - cbn [tally_entries]. unfold mbind, result_bind.
    destruct (tally_entry st e) as [st1|] eqn:He; [|discriminate].
    intros Hrest. apply IH in Hrest. apply tally_entry_step in He.
    cbn [length]. lia.
Qed.

(** A record that is an object with an object for its critiques is
    always counted; the four steps are then these. *)
Lemma tally_entry_dict st e c :
  dict_get (lit "critiques") (JDict []) e = JDict c ->
  exists st',
    tally_entry st (JDict e) = Ok st' /\
    tally_self_containment (JDict c) (self_containment st) = Ok (self_containment st') /\
    tally_difficulty (JDict c) (dict_get (lit "removed") (JBool false) e) (difficulty st)
      = Ok (difficulty st') /\
    tally_useful_derivation (JDict c) (dict_get (lit "removed") (JBool false) e)
      (useful_derivation st) = Ok (useful_derivation st') /\
    tally_refinement (JDict e) (dict_get (lit "removed") (JBool false) e) (refinement st)
      = Ok (refinement st').
Proof.
  intros Hc. unfold tally_entry. cbn [py_get]. rewrite Hc.
  cbn [mbind result_bind].
  unfold tally_self_containment, tally_difficulty, tally_useful_derivation,
    tally_refinement.
  rewrite !critique_object_dict. cbn [py_get].
  unfold mbind, result_bind, mret, result_ret.
  destruct (critique_dict (lit "self_containment") c);
    destruct (critique_dict (lit "difficulty") c);
    destruct (critique_dict (lit "useful_derivation") c);
    repeat match goal with
           | |- context [if ?b then _ else _] => destruct b
           | |- context [match ?v with JDict _ => _ | _ => _ end] => destruct v
           end;
    eexists; repeat split; reflexivity.
Qed.

End Tally.

(** C1, as the code has it.  For a removed record with a useful-derivation
    critique object, the tabulator counts [removed] (and neither pass nor
    fail) when the object's flag is there and false, and counts [pass] when
    the flag is true: removal takes precedence over a false flag only. *)
Theorem useful_derivation_removed_when_useless st e c d :
  truthy (dict_get (lit "removed") (JBool false) e) = true ->
  dict_get (lit "critiques") (JDict []) e = JDict c ->
  lookup_key (lit "useful_derivation") c = Some (JDict d) ->
  exists st',
    tally_entry st (JDict e) = Ok st' /\
    (truthy (dict_get (lit "is_useful_derivation") (JBool true) d) = false ->
     useful_derivation st' = incr_removed (useful_derivation st)) /\
    (truthy (dict_get (lit "is_useful_derivation") (JBool false) d) = true ->
     useful_derivation st' = incr_pass (useful_derivation st)).
Proof.
  intros Hr Hc Hd.
  destruct (tally_entry_dict st e c Hc) as (st' & Hst & _ & _ & Hud & _).
  exists st'. split; [exact Hst|].
  unfold tally_useful_derivation in Hud.
  rewrite critique_object_dict in Hud. unfold critique_dict in Hud.
  rewrite Hd, Hr in Hud. cbn [mbind result_bind andb] in Hud.
  split; intros Hflag.
  - rewrite Hflag in Hud. now injection Hud as <-.
  - assert (truthy (dict_get (lit "is_useful_derivation") (JBool true) d) = true)
      as Hpresent.
    { revert Hflag. unfold dict_get.
      now destruct (lookup_key (lit "is_useful_derivation") d). }
    rewrite Hpresent, Hflag in Hud. now injection Hud as <-.
Qed.

Lemma useful_derivation_removed_when_useless_witness :
  exists st',
    tally_entry initial_stats removed_useless_record = Ok st' /\
    useful_derivation st' = incr_removed (useful_derivation initial_stats).
Proof.
  destruct (useful_derivation_removed_when_useless initial_stats
              [ (lit "removed", JBool true);
                (lit "critiques",
                  JDict [ (lit "useful_derivation",
                            JDict [ (lit "is_useful_derivation", JBool false) ]) ]) ]
              [ (lit "useful_derivation",
                  JDict [ (lit "is_useful_derivation", JBool false) ]) ]
              [ (lit "is_useful_derivation", JBool false) ]
              eq_refl eq_refl eq_refl) as (st' & Hst & Hrem & _).
  exists st'. split; [exact Hst | apply Hrem; reflexivity].
Defined.

(** C1 fails as stated: a removed record whose flag is true is counted as
    a pass of the category, and its removed counter stays at zero. *)
Lemma removed_useful_record_counts_pass :
  collect_stats (JList [removed_useful_record]) =
  Ok {| self_containment := {| n_pass := 0; n_fail := 0 |};
        difficulty := {| r_pass := 0; r_fail := 0; r_removed := 0 |};
        useful_derivation := {| r_pass := 1; r_fail := 0; r_removed := 0 |};
        refinement := {| n_success := 0; n_failure := 0 |} |}.
Proof. vm_compute. reflexivity. Qed.

Lemma tally_refinement_dict e r c :
  tally_refinement (JDict e) r c =
  Ok (if truthy r then c
      else if refinement_succeeds e
           then {| n_success := S (n_success c); n_failure := n_failure c |}
           else {| n_success := n_success c; n_failure := S (n_failure c) |}).
Proof.
  unfold tally_refinement, refinement_succeeds. cbn [py_get mbind result_bind].
  unfold dict_get.
  destruct (truthy r); [reflexivity|]. cbn [negb].
  destruct (lookup_key (lit "refined_problem") e) as [v|]; [|reflexivity].
  destruct v; try reflexivity. now destruct (has_key _ _).
Qed.

(** C2, as the code has it.  A record that is not removed counts as a
    refinement success when its refined problem is missing or is an object
    with no [error] key, and as a failure otherwise (the value is not an
    object, or has the key); a removed record moves neither counter.  Every
    record whose critiques are an object is counted. *)
Theorem refinement_counted st e :
  (forall st', tally_entry st (JDict e) = Ok st' ->
     (truthy (dict_get (lit "removed") (JBool false) e) = true ->
      refinement st' = refinement st) /\
     (truthy (dict_get (lit "removed") (JBool false) e) = false ->
      (refinement_succeeds e = true ->
       refinement st' = {| n_success := S (n_success (refinement st));
                           n_failure := n_failure (refinement st) |}) /\
      (refinement_succeeds e = false ->
       refinement st' = {| n_success := n_success (refinement st);
                           n_failure := S (n_failure (refinement st)) |}))) /\
  (forall c, dict_get (lit "critiques") (JDict []) e = JDict c ->
     exists st', tally_entry st (JDict e) = Ok st').
Proof.
  split.
  - intros st' Hst.
    apply tally_entry_inv in Hst as (cr & r & _ & Hr & _ & _ & _ & Hrf).
    cbn [py_get] in Hr. injection Hr as <-.
    rewrite tally_refinement_dict in Hrf. injection Hrf as <-.
    split; [intros -> | intros ->; split; intros ->]; reflexivity.
  - intros c Hc. destruct (tally_entry_dict st e c Hc) as (st' & Hst & _).
    now exists st'.
Qed.

Lemma refinement_counted_witness :
  exists st',
    tally_entry initial_stats
      (JDict [ (lit "refined_problem", JDict [ (lit "error", JStr (lit "failed")) ]) ])
    = Ok st' /\
    refinement st' = {| n_success := 0; n_failure := 1 |}.
Proof.
  pose proof (refinement_counted initial_stats
    [ (lit "refined_problem", JDict [ (lit "error", JStr (lit "failed")) ]) ])
    as [Hcount Htotal].
  destruct (Htotal [] eq_refl) as [st' Hst].
  exists st'. split; [exact Hst|].
  apply (proj2 (proj2 (Hcount st' Hst) eq_refl)). reflexivity.
Defined.

(** C2 fails as stated: a record with no refined problem is counted as a
    refinement success. *)
Lemma absent_refined_problem_counts_success :
  collect_stats (JList [JDict [ (lit "removed", JBool false) ]]) =
  Ok {| self_containment := {| n_pass := 0; n_fail := 0 |};
        difficulty := {| r_pass := 0; r_fail := 0; r_removed := 0 |};
        useful_derivation := {| r_pass := 0; r_fail := 0; r_removed := 0 |};
        refinement := {| n_success := 1; n_failure := 0 |} |}.
Proof. vm_compute. reflexivity. Qed.

(** C10.  A record whose critiques lack a category, or have something
    other than an object for it, leaves the counters of that category as
    they were; hence no category's total exceeds the number of records. *)
Theorem category_totals_bounded :
  (forall st e c,
     dict_get (lit "critiques") (JDict []) e = JDict c ->
     exists st',
       tally_entry st (JDict e) = Ok st' /\
       (critique_dict (lit "self_containment") c = None ->
        self_containment st' = self_containment st) /\
       (critique_dict (lit "difficulty") c = None ->
        difficulty st' = difficulty st) /\
       (critique_dict (lit "useful_derivation") c = None ->
        useful_derivation st' = useful_derivation st)) /\
  (forall entries st,
     collect_stats (JList entries) = Ok st ->
     (total2 (self_containment st) <= length entries)%nat /\
     (total3 (difficulty st) <= length entries)%nat /\
     (total3 (useful_derivation st) <= length entries)%nat).
Proof.
  split.
  - intros st e c Hc.
    destruct (tally_entry_dict st e c Hc) as (st' & Hst & Hsc & Hdf & Hud & _).
    exists st'. split; [exact Hst|].
    unfold tally_self_containment in Hsc. unfold tally_difficulty in Hdf.
    unfold tally_useful_derivation in Hud.
    rewrite critique_object_dict in Hsc, Hdf, Hud.
    cbn [mbind result_bind] in Hsc, Hdf, Hud.
    split; [|split]; intros Hnone.
    + rewrite Hnone in Hsc. now injection Hsc.
    + rewrite Hnone in Hdf. now injection Hdf.
    + rewrite Hnone in Hud. now injection Hud.
  - intros entries st Hst. unfold collect_stats in Hst.
    cbn [py_iter mbind result_bind] in Hst.
    apply tally_entries_bound in Hst. exact Hst.
Qed.

Lemma category_totals_bounded_witness :
  (exists st',
     tally_entry initial_stats
       (JDict [ (lit "critiques", JDict [ (lit "difficulty", JStr (lit "n/a")) ]) ])
     = Ok st' /\
     difficulty st' = difficulty initial_stats) /\
  (total3 {| r_pass := 1; r_fail := 0; r_removed := 0 |} <= 1)%nat.
Proof.
  split.
  - destruct (proj1 category_totals_bounded initial_stats
                [ (lit "critiques", JDict [ (lit "difficulty", JStr (lit "n/a")) ]) ]
                [ (lit "difficulty", JStr (lit "n/a")) ] eq_refl)
      as (st' & Hst & _ & Hdf & _).
    exists st'. split; [exact Hst | apply Hdf; reflexivity].
  - apply (proj2 category_totals_bounded [removed_useful_record]
             {| self_containment := {| n_pass := 0; n_fail := 0 |};
                difficulty := {| r_pass := 0; r_fail := 0; r_removed := 0 |};
                useful_derivation := {| r_pass := 1; r_fail := 0; r_removed := 0 |};
                refinement := {| n_success := 0; n_failure := 0 |} |}).
    vm_compute. reflexivity.
Defined.

(** ** Record Renderer *)

Section Outcome.
Context `{PyEnv}.

Lemma render_refined_ok refined :
  refined_ok refined = true -> exists body, render_refined refined = Ok body.
Proof.
  destruct refined as [| | | | |l|d]; try (intros _; eexists; reflexivity).
  cbn [refined_ok render_refined].
  destruct (has_key (lit "error") d); [intros _; eexists; reflexivity|].
  cbn [orb negb]. fold (refined_solution d).
  destruct (refined_solution d) as [| | | |sol| |]; try discriminate.
  intros _. rewrite repair_boxed_str. eexists. reflexivity.
Qed.

(** The outcome is the last thing of a record before its page break. *)
Lemma render_entry_outcome i e out :
  render_entry i e = Ok out ->
  exists before outcome,
    render_outcome e = Ok outcome /\ out = before ++ outcome ++ line "\newpage".
Proof.
  unfold render_entry.
  destruct (render_heading i e) as [h|]; [|discriminate].
  destruct (render_original e) as [o|]; [|discriminate].
  destruct (render_critiques e) as [c|]; [|discriminate].
  destruct (render_outcome e) as [oc|]; [|discriminate].
  cbn [mbind result_bind mret result_ret]. intros [= <-].
  exists (h ++ o ++ c), oc. split; [reflexivity|]. now rewrite <- !app_assoc.
Qed.

End Outcome.

(** ** Records of the expected shape never raise *)

Section WellShaped.
Context `{PyEnv}.

Lemma format_issues_ok issues :
  forallb is_dict issues = true -> exists t, format_issues issues = Ok t.
Proof.
  induction issues as [|issue issues IH]; [intros _; now exists []|].
  cbn [forallb]. intros [Hd Hrest]%andb_prop.
  destruct issue; try discriminate.
  destruct (IH Hrest) as [ts Hts].
  cbn [format_issues format_issue py_get mbind result_bind]. rewrite Hts.
  eexists. reflexivity.
Qed.

Lemma format_critique_section_ok critique_type critique_data :
  critique_ok critique_data = true ->
  exists t, format_critique_section critique_type critique_data = Ok t.
Proof.
  destruct critique_data as [| | | | |l|d]; try (intros _; eexists; reflexivity).
  cbn [critique_ok format_critique_section].
  destruct (has_key (lit "error") d); [intros _; eexists; reflexivity|].
  cbn [orb negb]. destruct (critique_status critique_type d) as [status status_text].
  destruct (dict_get (lit "issues") (JList []) d) as [| | | | |l|kvs] eqn:Hissues;
    cbn [issues_ok]; intros Hok.
  all: try (apply negb_true_iff in Hok; rewrite Hok; eexists; reflexivity).
  destruct l as [|issue l]; [eexists; reflexivity|].
  cbn [truthy py_iter mbind result_bind].
  destruct (format_issues_ok _ Hok) as [body ->]. eexists. reflexivity.
Qed.

Lemma render_critique_ok c k heading :
  critique_at_ok c k = true ->
  exists t, render_critique (JDict c) k heading = Ok t.
Proof.
  unfold critique_at_ok, render_critique, py_in, py_index, has_key.
  cbn [mbind result_bind].
  destruct (lookup_key k c) as [v|]; [|intros _; eexists; reflexivity].
  cbn [mbind result_bind].
  intros Hok. destruct (format_critique_section_ok k v Hok) as [body ->].
  eexists. reflexivity.
Qed.

Lemma render_critiques_ok e :
  critiques_ok (dict_get (lit "critiques") (JDict []) e) = true ->
  exists t, render_critiques (JDict e) = Ok t.
Proof.
  unfold render_critiques. cbn [py_get mbind result_bind].
  destruct (dict_get (lit "critiques") (JDict []) e) as [| | | | |l|c]; try discriminate.
  cbn [critiques_ok]. intros [[Hsc Hdf]%andb_prop Hud]%andb_prop.
  destruct (render_critique_ok c _ (lit "\paragraph*{Self-Containment Critique:}") Hsc)
    as [sc ->].
  destruct (render_critique_ok c _ (lit "\paragraph*{Difficulty Critique:}") Hdf)
    as [df ->].
  destruct (render_critique_ok c _ (lit "\paragraph*{Useful Derivation Critique:}") Hud)
    as [ud ->].
  eexists. reflexivity.
Qed.

Lemma render_original_ok e :
  original_ok (dict_get (lit "original_problem") (JDict []) e) = true ->
  exists t, render_original (JDict e) = Ok t.
Proof.
  unfold render_original. cbn [py_get mbind result_bind].
  destruct (dict_get (lit "original_problem") (JDict []) e) as [| | | | |l|o];
    try discriminate.
  cbn [original_ok py_get mbind result_bind].
  destruct (dict_get (lit "final_solution") _ o) as [| | | |sol| |]; try discriminate.
  intros _. rewrite repair_boxed_str. eexists. reflexivity.
Qed.

Lemma render_outcome_ok e :
  refined_ok (dict_get (lit "refined_problem") (JDict []) e) = true ->
  exists t, render_outcome (JDict e) = Ok t.
Proof.
  intros Hok. unfold render_outcome. cbn [py_get mbind result_bind].
  destruct (truthy (dict_get (lit "removed") _ e)); [eexists; reflexivity|].
  destruct (negb _); [eexists; reflexivity|].
  destruct (render_refined_ok _ Hok) as [body ->]. eexists. reflexivity.
Qed.

Lemma render_entry_ok i critique_entry :
  well_shaped critique_entry = true -> exists t, render_entry i critique_entry = Ok t.
Proof.
  destruct critique_entry as [| | | | |l|e]; try discriminate.
  cbn [well_shaped]. intros [[Ho Hc]%andb_prop Hr]%andb_prop.
  unfold render_entry.
  destruct (render_original_ok e Ho) as [o ->].
  destruct (render_critiques_ok e Hc) as [c ->].
  destruct (render_outcome_ok e Hr) as [oc ->].
  unfold render_heading. cbn [py_get mbind result_bind]. eexists. reflexivity.
Qed.

Lemma render_entries_ok entries : forall i,
  forallb well_shaped entries = true -> exists t, render_entries i entries = Ok t.
Proof.
  induction entries as [|e entries IH]; intros i; [intros _; now exists []|].
  cbn [forallb]. intros [He Hrest]%andb_prop.
  destruct (render_entry_ok i e He) as [t Ht].
  destruct (IH (S i) Hrest) as [ts Hts].
  cbn [render_entries]. rewrite Ht. cbn [mbind result_bind]. rewrite Hts.
  eexists. reflexivity.
Qed.

Lemma tally_entry_ok st critique_entry :
  well_shaped critique_entry = true -> exists st', tally_entry st critique_entry = Ok st'.
Proof.
  destruct critique_entry as [| | | | |l|e]; try discriminate.
  cbn [well_shaped]. intros [[_ Hc]%andb_prop _]%andb_prop.
  destruct (dict_get (lit "critiques") (JDict []) e) as [| | | | |l|c] eqn:Hcr;
    try discriminate.
  destruct (tally_entry_dict st e c Hcr) as (st' & Hst & _). now exists st'.
Qed.

Lemma tally_entries_ok entries : forall st,
  forallb well_shaped entries = true -> exists st', tally_entries st entries = Ok st'.
Proof.
  induction entries as [|e entries IH]; intros st; [intros _; now exists st|].
  cbn [forallb]. intros [He Hrest]%andb_prop.
  destruct (tally_entry_ok st e He) as [st1 Hst1].
  cbn [tally_entries]. rewrite Hst1. cbn [mbind result_bind]. now apply IH.
Qed.

(** Both passes over a list of records of the expected shape end well. *)
Lemma well_shaped_total (entries : list json) :
  forallb well_shaped entries = true ->
  (exists table, generate_summary_table (JList entries) = Ok table) /\
  (exists section, generate_critiques_section (JList entries) = Ok section).
Proof.
  intros Hshape. split.
  - unfold generate_summary_table, collect_stats. cbn [py_iter mbind result_bind].
    destruct (tally_entries_ok entries initial_stats Hshape) as [st ->].
    eexists. reflexivity.
  - unfold generate_critiques_section. cbn [py_iter mbind result_bind].
    destruct (render_entries_ok entries 0%nat Hshape) as [body ->].
    eexists. reflexivity.
Qed.

(** C3, as the code has it.  For records of the expected shape, whatever
    keys they lack, neither the tabulator nor the renderer raises; and an
    original problem with no statement and no solution is rendered with the
    two placeholder texts. *)
Theorem well_shaped_records_never_raise (entries : list json) :
  forallb well_shaped entries = true ->
  (exists table, generate_summary_table (JList entries) = Ok table) /\
  (exists section, generate_critiques_section (JList entries) = Ok section) /\
  (forall e o,
     dict_get (lit "original_problem") (JDict []) e = JDict o ->
     lookup_key (lit "problem_statement") o = None ->
     lookup_key (lit "final_solution") o = None ->
     render_original (JDict e)
     = Ok (line "\subsubsection*{Original Problem Statement}"
           ++ lit "No problem statement" ++ [NL; NL]
           ++ line "\subsubsection*{Original Solution}"
           ++ lit "\[ No solution \]" ++ [NL; NL])).
Proof.
  intros Hshape. destruct (well_shaped_total entries Hshape) as [Htable Hsection].
  split; [exact Htable|]. split; [exact Hsection|].
  intros e o Ho Hst Hsol. unfold render_original.
  cbn [py_get mbind result_bind]. rewrite Ho. cbn [py_get mbind result_bind].
  unfold dict_get. rewrite Hst, Hsol. reflexivity.
Qed.

End WellShaped.

Lemma well_shaped_records_never_raise_witness :
  (exists table, generate_summary_table (JList [JDict []]) = Ok table) /\
  (exists section, @generate_critiques_section example_env (JList [JDict []]) = Ok section).
Proof.
  destruct (@well_shaped_records_never_raise example_env [JDict []] eq_refl)
    as (Htable & Hsection & _).
  split; assumption.
Defined.

(** C3 fails as stated, on each of the shapes it names: an original
    problem that is a string, a solution that is a number and an issue that
    is a string make the renderer raise, and critiques that are a number
    make the tabulator raise. *)
Lemma malformed_records_raise :
  @generate_critiques_section example_env
    (JList [JDict [ (lit "original_problem", JStr (lit "text")) ]])
  = Raise AttributeError /\
  @generate_critiques_section example_env
    (JList [JDict [ (lit "original_problem",
                      JDict [ (lit "final_solution", JInt 42) ]) ]])
  = Raise TypeError /\
  @generate_critiques_section example_env
    (JList [JDict [ (lit "critiques",
                      JDict [ (lit "difficulty",
                                JDict [ (lit "issues", JList [JStr (lit "vague")]) ]) ]) ]])
  = Raise AttributeError /\
  generate_summary_table (JList [JDict [ (lit "critiques", JInt 5) ]])
  = Raise TypeError.
Proof. repeat split; vm_compute; reflexivity. Qed.

(** ** The outcome of a record *)

Section Precedence.
Context `{PyEnv}.

(** C4, as the code has it.  The outcome of a record follows a three-way
    precedence.  A removed record gets the removal notice with its escaped
    reason, the default text when it has none, whatever its other fields; a
    record that is not removed and not included gets the fixed exclusion
    notice; any other record gets the refined-problem heading followed by the
    error notice, when its refined problem is not an object or is marked as
    an error, or by the refined statement and the formatted solution, when
    the solution is a string: in neither case a removal or exclusion notice.
    For a record of the expected shape the outcome is what its text ends
    with, before the page break. *)
Theorem outcome_precedence (e : list (str * json)) :
  (truthy (dict_get (lit "removed") (JBool false) e) = true ->
   render_outcome (JDict e)
   = Ok (STATUS_HEADING
         ++ removal_notice
              (dict_get (lit "removal_reason") (JStr (lit "Marked for removal")) e)) /\
   (lookup_key (lit "removal_reason") e = None ->
    render_outcome (JDict e)
    = Ok (STATUS_HEADING
          ++ lit "\textcolor{fail}{\textbf{REMOVED: Marked for removal}}"
          ++ [NL; NL]))) /\
  (truthy (dict_get (lit "removed") (JBool false) e) = false ->
   truthy (dict_get (lit "included_in_dataset") (JBool true) e) = false ->
   render_outcome (JDict e) = Ok (STATUS_HEADING ++ EXCLUSION_NOTICE)) /\
  (truthy (dict_get (lit "removed") (JBool false) e) = false ->
   truthy (dict_get (lit "included_in_dataset") (JBool true) e) = true ->
   (refinement_failed (dict_get (lit "refined_problem") (JDict []) e) = true ->
    render_outcome (JDict e) = Ok (REFINED_HEADING ++ REFINE_ERROR_NOTICE)) /\
   (forall d sol,
      dict_get (lit "refined_problem") (JDict []) e = JDict d ->
      has_key (lit "error") d = false ->
      refined_solution d = JStr sol ->
      exists repaired,
        repair_boxed (JStr sol) = Ok (JStr repaired) /\
        render_outcome (JDict e)
        = Ok (REFINED_HEADING
              ++ line "\paragraph*{Refined Problem Statement:}"
              ++ py_str (refined_statement d) ++ [NL; NL]
              ++ line "\paragraph*{Refined Solution:}"
              ++ format_tex_display_math (JStr repaired) ++ [NL; NL]))) /\
  (forall i, well_shaped (JDict e) = true ->
     exists before outcome,
       render_outcome (JDict e) = Ok outcome /\
       render_entry i (JDict e) = Ok (before ++ outcome ++ line "\newpage")).
Proof.
  split; [|split; [|split]].
  - unfold render_outcome. cbn [py_get mbind result_bind].
    intros ->. split; [reflexivity|].
    intros Hnone. unfold dict_get at 1. now rewrite Hnone.
  - unfold render_outcome. cbn [py_get mbind result_bind].
    intros -> ->. reflexivity.
  - unfold render_outcome. cbn [py_get mbind result_bind].
    intros -> ->. cbn [negb]. split.
    + destruct (dict_get (lit "refined_problem") (JDict []) e) as [| | | | | |d];
        try (intros _; reflexivity).
      cbn [refinement_failed render_refined]. now intros ->.
    + intros d sol -> Herr Hsol. cbn [render_refined]. rewrite Herr. cbn [negb].
      fold (refined_solution d). fold (refined_statement d). rewrite Hsol.
      rewrite repair_boxed_str. eexists. split; reflexivity.
  - intros i. cbn [well_shaped]. intros [[Ho Hc]%andb_prop Hr]%andb_prop.
    unfold render_entry.
    destruct (render_original_ok e Ho) as [o ->].
    destruct (render_critiques_ok e Hc) as [c ->].
    destruct (render_outcome_ok e Hr) as [oc ->].
    unfold render_heading. cbn [py_get mbind result_bind mret result_ret].
    eexists. exists oc. split; [reflexivity|].
    rewrite (app_assoc _ o), (app_assoc _ c). reflexivity.
Qed.

End Precedence.

Lemma outcome_precedence_witness :
  @render_outcome example_env
    (JDict [ (lit "removed", JBool true); (lit "removal_reason", JStr (lit "too_easy"));
             (lit "included_in_dataset", JBool true) ])
  = Ok (STATUS_HEADING ++ lit "\textcolor{fail}{\textbf{REMOVED: too\_easy}}" ++ [NL; NL])
  /\ @render_outcome example_env (JDict [ (lit "included_in_dataset", JBool false) ])
     = Ok (STATUS_HEADING ++ EXCLUSION_NOTICE)
  /\ @render_outcome example_env
       (JDict [ (lit "refined_problem", JDict [ (lit "error", JStr (lit "timeout")) ]) ])
     = Ok (REFINED_HEADING ++ REFINE_ERROR_NOTICE)
  /\ (exists repaired,
        repair_boxed (JStr (lit "$a$")) = Ok (JStr repaired) /\
        @render_outcome example_env
          (JDict [ (lit "refined_problem",
                     JDict [ (lit "question", JStr (lit "Q"));
                             (lit "answer", JStr (lit "$a$")) ]) ])
        = Ok (REFINED_HEADING
              ++ line "\paragraph*{Refined Problem Statement:}"
              ++ lit "Q" ++ [NL; NL]
              ++ line "\paragraph*{Refined Solution:}"
              ++ format_tex_display_math (JStr repaired) ++ [NL; NL]))
  /\ exists before outcome,
       @render_outcome example_env (JDict end_to_end_fields) = Ok outcome /\
       @render_entry example_env 0 (JDict end_to_end_fields)
       = Ok (before ++ outcome ++ line "\newpage").
Proof.
  split; [|split; [|split; [|split]]].
  - apply (proj1 (proj1 (@outcome_precedence example_env
             [ (lit "removed", JBool true); (lit "removal_reason", JStr (lit "too_easy"));
               (lit "included_in_dataset", JBool true) ]) eq_refl)).
  - apply (proj1 (proj2 (@outcome_precedence example_env
             [ (lit "included_in_dataset", JBool false) ])) eq_refl eq_refl).
  - apply (proj1 (proj1 (proj2 (proj2 (@outcome_precedence example_env
             [ (lit "refined_problem", JDict [ (lit "error", JStr (lit "timeout")) ]) ])))
             eq_refl eq_refl) eq_refl).
  - apply (proj2 (proj1 (proj2 (proj2 (@outcome_precedence example_env
             [ (lit "refined_problem",
                 JDict [ (lit "question", JStr (lit "Q"));
                         (lit "answer", JStr (lit "$a$")) ]) ])))
             eq_refl eq_refl)
             [ (lit "question", JStr (lit "Q")); (lit "answer", JStr (lit "$a$")) ]
             (lit "$a$") eq_refl eq_refl eq_refl).
  - apply (proj2 (proj2 (proj2 (@outcome_precedence example_env
             end_to_end_fields))) 0%nat eq_refl).
Defined.

(** C4 fails as stated: a record that is neither removed nor excluded and
    whose refined solution is a number gets no outcome at all, the brace
    repair raises on it. *)
Lemma untyped_refined_solution_raises :
  @render_outcome example_env
    (JDict [ (lit "refined_problem", JDict [ (lit "final_solution", JInt 42) ]) ])
  = Raise TypeError /\
  @generate_critiques_section example_env
    (JList [JDict [ (lit "refined_problem", JDict [ (lit "final_solution", JInt 42) ]) ]])
  = Raise TypeError.
Proof. split; vm_compute; reflexivity. Qed.

(** ** Document Assembler *)

Section Run.
Context `{PyEnv}.

Lemma path_exists_file w path n : files w !! path = Some n -> path_exists w path = true.
Proof.
  intros Hfile. unfold path_exists. rewrite Hfile.
  apply bool_decide_eq_true_2. now exists n.
Qed.

Lemma open_for_writing_ok w path :
  files w !! path <> Some Directory ->
  (files w !! path = None -> creatable w path = true) ->
  open_for_writing w path = Ok (set_file w path (File [])).
Proof.
  intros Hdir Hnew. unfold open_for_writing.
  destruct (files w !! path) as [[content|]|]; [reflexivity | congruence |].
  now rewrite Hnew.
Qed.

Lemma set_file_twice w path n1 n2 :
  set_file (set_file w path n1) path n2 = set_file w path n2.
Proof. unfold set_file. cbn. f_equal. apply insert_insert_eq. Qed.

Lemma write_file_ok w path text :
  files w !! path <> Some Directory ->
  (files w !! path = None -> creatable w path = true) ->
  write_file w path text
  = if encodable text then (set_file w path (File text), None)
    else (set_file w path (File []), Some UnicodeEncodeError).
Proof.
  intros Hdir Hnew. unfold write_file.
  rewrite (open_for_writing_ok _ _ Hdir Hnew).
  destruct (encodable text); [|reflexivity]. now rewrite set_file_twice.
Qed.

(** C9, as the code has it.  When the input path does not exist the run
    prints the error, leaves the files as they are and raises nothing.  When
    the path is a file that parses to a list of records of the expected
    shape and the output path can be opened for writing, the report is
    assembled; if its text can be encoded, the run writes header, summary
    table, record sections and footer to the output path, prints the two
    closing messages and raises nothing; if the text has a surrogate, the
    run leaves the output file empty, prints nothing and raises. *)
Theorem export_critiques_to_tex_runs (w : world) (critiques_file output_tex_file : string) :
  (path_exists w critiques_file = false ->
   export_critiques_to_tex w critiques_file output_tex_file
   = (print (lit "Error: Critiques file not found at '" ++ lit critiques_file ++ lit "'") w,
      None) /\
   files (fst (export_critiques_to_tex w critiques_file output_tex_file)) = files w) /\
  (forall content entries,
     files w !! critiques_file = Some (File content) ->
     json_loads content = Ok (JList entries) ->
     forallb well_shaped entries = true ->
     files w !! output_tex_file <> Some Directory ->
     (files w !! output_tex_file = None -> creatable w output_tex_file = true) ->
     exists summary section,
       generate_summary_table (JList entries) = Ok summary /\
       generate_critiques_section (JList entries) = Ok section /\
       (encodable (TEX_TEMPLATE_HEADER ++ summary ++ section ++ TEX_TEMPLATE_FOOTER)
        = true ->
        export_critiques_to_tex w critiques_file output_tex_file
        = (print (lit "You can now compile this file using a LaTeX distribution (like pdflatex) to create a PDF.")
             (print (lit "LaTeX critiques report successfully generated at '"
                     ++ lit output_tex_file ++ lit "'")
                (set_file w output_tex_file
                   (File (TEX_TEMPLATE_HEADER ++ summary ++ section
                          ++ TEX_TEMPLATE_FOOTER)))),
           None)) /\
       (encodable (TEX_TEMPLATE_HEADER ++ summary ++ section ++ TEX_TEMPLATE_FOOTER)
        = false ->
        export_critiques_to_tex w critiques_file output_tex_file
        = (set_file w output_tex_file (File []), Some UnicodeEncodeError))).
Proof.
  split.
  - intros Hmissing. unfold export_critiques_to_tex. now rewrite Hmissing.
  - intros content entries Hfile Hparse Hshape Hdir Hnew.
    destruct (well_shaped_total entries Hshape)
      as ([summary Hsummary] & [section Hsection]).
    exists summary, section. split; [exact Hsummary|]. split; [exact Hsection|].
    unfold export_critiques_to_tex, read_file, assemble.
    rewrite (path_exists_file _ _ _ Hfile), Hfile. cbn [negb mbind result_bind].
    rewrite Hparse. cbn [mbind result_bind].
    rewrite Hsummary, Hsection. cbn [mbind result_bind mret result_ret].
    rewrite (write_file_ok _ _ _ Hdir Hnew).
    split; intros ->; reflexivity.
Qed.

End Run.

Lemma export_critiques_to_tex_runs_witness :
  files (fst (@export_critiques_to_tex report_env world_with_one_record
                "missing.json" "report.tex"))
  = files world_with_one_record /\
  exists summary section,
    generate_summary_table (JList [JDict [ (lit "paper_id", JStr (lit "p_1")) ]])
    = Ok summary /\
    @generate_critiques_section report_env
      (JList [JDict [ (lit "paper_id", JStr (lit "p_1")) ]]) = Ok section /\
    @export_critiques_to_tex report_env world_with_one_record
      "critiques.json" "report.tex"
    = (print (lit "You can now compile this file using a LaTeX distribution (like pdflatex) to create a PDF.")
         (print (lit "LaTeX critiques report successfully generated at 'report.tex'")
            (set_file world_with_one_record "report.tex"
               (File (TEX_TEMPLATE_HEADER ++ summary ++ section
                      ++ TEX_TEMPLATE_FOOTER)))),
       None).
Proof.
  split.
  - apply (proj1 (@export_critiques_to_tex_runs report_env world_with_one_record
                    "missing.json" "report.tex")).
    vm_compute. reflexivity.
  - destruct (proj2 (@export_critiques_to_tex_runs report_env world_with_one_record
                       "critiques.json" "report.tex")
                one_record_text [JDict [ (lit "paper_id", JStr (lit "p_1")) ]])
      as (summary & section & Hsummary & Hsection & Hwritten & _).
    + vm_compute. reflexivity.
    + reflexivity.
    + reflexivity.
    + vm_compute. discriminate.
    + intros _. reflexivity.
    + exists summary, section. split; [exact Hsummary|]. split; [exact Hsection|].
      apply Hwritten.
      assert (Ok summary
              = generate_summary_table
                  (JList [JDict [ (lit "paper_id", JStr (lit "p_1")) ]])) as Hs
        by (now rewrite Hsummary).
      assert (Ok section
              = @generate_critiques_section report_env
                  (JList [JDict [ (lit "paper_id", JStr (lit "p_1")) ]])) as Hc
        by (now rewrite Hsection).
      vm_compute in Hs. vm_compute in Hc.
      assert (forall a b : str, Ok a = Ok b -> a = b) as Hinj
        by (intros a b [= ->]; reflexivity).
      apply Hinj in Hs. apply Hinj in Hc. subst summary section.
      vm_compute. reflexivity.
Defined.

(** With a lone surrogate in a record the run raises while writing, and
    leaves an empty output file and no message. *)
Example surrogate_record_leaves_empty_output :
  @export_critiques_to_tex report_env world_with_surrogate "critiques.json" "report.tex"
  = (set_file world_with_surrogate "report.tex" (File []), Some UnicodeEncodeError).
Proof. vm_compute. reflexivity. Qed.

(** C9 fails as stated: with an input path that exists, the run can end in
    an exception with nothing written and nothing printed, when the file
    holds records of another shape or when the path is a directory. *)
Lemma existing_path_may_raise :
  @export_critiques_to_tex example_env world_with_bad_records
    "critiques.json" "report.tex"
  = (world_with_bad_records, Some AttributeError) /\
  files world_with_bad_records !! "report.tex"%string = None /\
  @export_critiques_to_tex example_env world_with_directory
    "critiques.json" "report.tex"
  = (world_with_directory, Some IsADirectoryError).
Proof. repeat split; vm_compute; reflexivity. Qed.

(** ** The pass rate *)

Lemma pass_rate_not_applicable pass_count total :
  pass_rate pass_count total = lit "N/A" <-> total = 0%nat.
Proof.
  unfold pass_rate. destruct total as [|total]; [easy|].
  change (0 <? S total)%nat with true. cbn iota.
  change (lit "\%") with [92; 37]. change (lit "N/A") with [78; 47; 65].
  split; intros Heq; [exfalso|discriminate Heq].
  destruct (format_1f _) as [|a [|b [|c [|d t]]]]; cbn [app] in Heq; discriminate Heq.
Qed.

Lemma refinement_row_removed c : removed_count (refinement_row c) = 0%nat.
Proof. reflexivity. Qed.

Lemma refinement_row_last st :
  last (summary_rows st) = Some (refinement_row (refinement st)).
Proof. reflexivity. Qed.

Example pass_rate_one_of_three : pass_rate 1 3 = lit "33.3\%".
Proof. vm_compute. reflexivity. Qed.

Example pass_rate_of_nothing : pass_rate 0 0 = lit "N/A".
Proof. reflexivity. Qed.

(** The rendered rate is a nearest tenth of the exact percentage for every
    row of up to a hundred records. *)
Lemma pass_rate_nearest_tenth_small :
  forallb (fun total =>
             forallb (fun pass_count => nearest_tenth pass_count total)
               (seq 0 (S total)))
    (seq 1 100) = true.
Proof. vm_compute. reflexivity. Qed.

Section Rate.








End Rate.


Example escape_latex_ex :
  escape_latex (JStr (lit "a_b & 50% {x}")) = lit "a\_b \& 50\% \{x\}".
Proof. vm_compute. reflexivity. Qed.

Example format_ex1 :
  format_tex_display_math (JStr (lit "$x=1$")) = lit "\[ x=1 \]".
Proof. vm_compute. reflexivity. Qed.

Example format_ex2 :
  format_tex_display_math (JStr (lit "  \[y=2\] ")) = lit "\[ y=2 \]".
Proof. vm_compute. reflexivity. Qed.

(** The end-to-end property of the specification: both solutions come out
    as one display block each, under the refined-problem heading. *)
Example end_to_end_sections :
  @generate_critiques_section example_env (JList [end_to_end_record])
  = Ok (lit "\section*{Problem Details}

\subsection*{Problem 1 (Paper: p1, Index: 0)}

\subsubsection*{Original Problem Statement}
No problem statement

\subsubsection*{Original Solution}
\[ x=1 \]

\subsubsection*{Critiques}
\subsubsection*{Refined Problem}
\paragraph*{Refined Problem Statement:}
Q

\paragraph*{Refined Solution:}
\[ y=2 \]

\newpage
").
Proof. vm_compute. reflexivity. Qed.

(** The summary-count property of the specification: three records pass
    self-containment and two fail it, one of the two being removed; removal
    leaves that category alone and goes to the removed counter of
    difficulty. *)
Example summary_counts :
  collect_stats
    (JList [ verdict_record true false; verdict_record true false;
             verdict_record true false; verdict_record false false;
             verdict_record false true ])
  = Ok {| self_containment := {| n_pass := 3; n_fail := 2 |};
          difficulty := {| r_pass := 0; r_fail := 4; r_removed := 1 |};
          useful_derivation := {| r_pass := 0; r_fail := 0; r_removed := 0 |};
          refinement := {| n_success := 4; n_failure := 0 |} |}.
Proof. vm_compute. reflexivity. Qed.

(** A body with a line break is not unwrapped: the block is wrapped again. *)
Example format_multiline_twice :
  format_tex_display_math (JStr (lit "a" ++ [NL] ++ lit "b"))
  = lit "\[ a" ++ [NL] ++ lit "b \]" /\
  format_tex_display_math (JStr (lit "\[ a" ++ [NL] ++ lit "b \]"))
  = lit "\[ \[ a" ++ [NL] ++ lit "b \] \]".
Proof. split; vm_compute; reflexivity. Qed.

(** A removed record whose useful-derivation object has no flag is
    counted as a fail: the two lookups of the flag have different defaults. *)
Example removed_unflagged_record_counts_fail :
  collect_stats
    (JList [JDict [ (lit "removed", JBool true);
                    (lit "critiques", JDict [ (lit "useful_derivation", JDict []) ]) ]])
  = Ok {| self_containment := {| n_pass := 0; n_fail := 0 |};
          difficulty := {| r_pass := 0; r_fail := 0; r_removed := 0 |};
          useful_derivation := {| r_pass := 0; r_fail := 1; r_removed := 0 |};
          refinement := {| n_success := 0; n_failure := 0 |} |}.
Proof. vm_compute. reflexivity. Qed.

(** * Further properties *)

(** ** Summary Tabulator: what each record adds *)

Section Counting.

(** X1.  Self-containment is counted by its flag alone: a record with a
    self-containment object adds one pass when the flag is truthy and one
    fail otherwise, whether or not the record is removed. *)
Theorem self_containment_ignores_removed st e c d :
  dict_get (lit "critiques") (JDict []) e = JDict c ->
  lookup_key (lit "self_containment") c = Some (JDict d) ->
  exists st',
    tally_entry st (JDict e) = Ok st' /\
    self_containment st' =
      if truthy (dict_get (lit "is_self_contained") (JBool false) d)
      then {| n_pass := S (n_pass (self_containment st));
              n_fail := n_fail (self_containment st) |}
      else {| n_pass := n_pass (self_containment st);
              n_fail := S (n_fail (self_containment st)) |}.
Proof.
  intros Hc Hd.
  destruct (tally_entry_dict st e c Hc) as (st' & Hst & Hsc & _).
  exists st'. split; [exact Hst|].
  unfold tally_self_containment in Hsc.
  rewrite critique_object_dict in Hsc. unfold critique_dict in Hsc.
  rewrite Hd in Hsc. cbn [mbind result_bind] in Hsc.
  destruct (truthy _); now injection Hsc as <-.
Qed.

Lemma self_containment_ignores_removed_witness :
  exists st',
    tally_entry initial_stats (verdict_record false true) = Ok st' /\
    self_containment st' = {| n_pass := 0; n_fail := 1 |}.
Proof.
  destruct (self_containment_ignores_removed initial_stats
              [ (lit "removed", JBool true);
                (lit "critiques",
                  JDict [ (lit "self_containment",
                            JDict [ (lit "is_self_contained", JBool false) ]);
                          (lit "difficulty",
                            JDict [ (lit "is_non_trivial", JBool false) ]) ]) ]
              [ (lit "self_containment",
                  JDict [ (lit "is_self_contained", JBool false) ]);
                (lit "difficulty", JDict [ (lit "is_non_trivial", JBool false) ]) ]
              [ (lit "is_self_contained", JBool false) ] eq_refl eq_refl)
    as (st' & Hst & Hsc).
  exists st'. split; [exact Hst | exact Hsc].
Defined.

(** X2.  For difficulty removal comes first: a removed record with a
    difficulty object adds one to [removed] whatever its flag; a record that
    is not removed adds a pass when the flag is truthy and a fail otherwise
    (a missing flag is a fail). *)
Theorem difficulty_removed_first st e c d :
  dict_get (lit "critiques") (JDict []) e = JDict c ->
  lookup_key (lit "difficulty") c = Some (JDict d) ->
  exists st',
    tally_entry st (JDict e) = Ok st' /\
    difficulty st' =
      if truthy (dict_get (lit "removed") (JBool false) e)
      then incr_removed (difficulty st)
      else if truthy (dict_get (lit "is_non_trivial") (JBool false) d)
           then incr_pass (difficulty st)
           else incr_fail (difficulty st).
Proof.
  intros Hc Hd.
  destruct (tally_entry_dict st e c Hc) as (st' & Hst & _ & Hdf & _).
  exists st'. split; [exact Hst|].
  unfold tally_difficulty in Hdf.
  rewrite critique_object_dict in Hdf. unfold critique_dict in Hdf.
  rewrite Hd in Hdf. cbn [mbind result_bind] in Hdf.
  destruct (truthy (dict_get (lit "removed") _ e)); [now injection Hdf as <-|].
  destruct (truthy _); now injection Hdf as <-.
Qed.

Lemma difficulty_removed_first_witness :
  exists st',
    tally_entry initial_stats (verdict_record true true) = Ok st' /\
    difficulty st' = {| r_pass := 0; r_fail := 0; r_removed := 1 |}.
Proof.
  destruct (difficulty_removed_first initial_stats
              [ (lit "removed", JBool true);
                (lit "critiques",
                  JDict [ (lit "self_containment",
                            JDict [ (lit "is_self_contained", JBool true) ]);
                          (lit "difficulty",
                            JDict [ (lit "is_non_trivial", JBool false) ]) ]) ]
              [ (lit "self_containment",
                  JDict [ (lit "is_self_contained", JBool true) ]);
                (lit "difficulty", JDict [ (lit "is_non_trivial", JBool false) ]) ]
              [ (lit "is_non_trivial", JBool false) ] eq_refl eq_refl)
    as (st' & Hst & Hdf).
  exists st'. split; [exact Hst | exact Hdf].
Defined.

Lemma tally_entry_counts st e st' :
  tally_entry st e = Ok st' ->
  total2 (self_containment st')
    = (total2 (self_containment st) + unit_of (has_critique (lit "self_containment") e))%nat /\
  total3 (difficulty st')
    = (total3 (difficulty st) + unit_of (has_critique (lit "difficulty") e))%nat /\
  total3 (useful_derivation st')
    = (total3 (useful_derivation st)
       + unit_of (has_critique (lit "useful_derivation") e))%nat /\
  (n_success (refinement st') + n_failure (refinement st'))%nat
    = (n_success (refinement st) + n_failure (refinement st)
       + unit_of (negb (entry_removed e)))%nat /\
  r_removed (difficulty st')
    = (r_removed (difficulty st)
       + unit_of (has_critique (lit "difficulty") e && entry_removed e))%nat.
Proof.
  intros Hst.
  apply tally_entry_inv in Hst as (cr & r & Hc & Hr & Hsc & Hdf & Hud & Hrf).
  destruct e as [| | | | |l|e]; try discriminate Hc.
  cbn [py_get] in Hc, Hr. injection Hc as <-. injection Hr as <-.
  unfold has_critique, entry_removed, total2, total3.
  unfold tally_self_containment in Hsc. unfold tally_difficulty in Hdf.
  unfold tally_useful_derivation in Hud. rewrite tally_refinement_dict in Hrf.
  injection Hrf as <-.
  destruct (critique_object _ (lit "self_containment")) as [[dsc|]|];
    [| |discriminate Hsc];
    (destruct (critique_object _ (lit "difficulty")) as [[ddf|]|];
     [| |discriminate Hdf]);
    (destruct (critique_object _ (lit "useful_derivation")) as [[dud|]|];
     [| |discriminate Hud]);
    cbn [mbind result_bind mret result_ret] in Hsc, Hdf, Hud;
    repeat match type of Hsc with
           | context [if ?b then _ else _] => destruct b
           end;
    repeat match type of Hdf with
           | context [if ?b then _ else _] => destruct b
           end;
    repeat match type of Hud with
           | context [if ?b then _ else _] => destruct b
           end;
    injection Hsc as <-; injection Hdf as <-; injection Hud as <-;
    repeat match goal with
           | |- context [if ?b then _ else _] => destruct b
           end;
    cbn; lia.
Qed.

Lemma tally_entries_counts entries : forall st st',
  tally_entries st entries = Ok st' ->
  total2 (self_containment st')
    = (total2 (self_containment st)
       + count_entries (has_critique (lit "self_containment")) entries)%nat /\
  total3 (difficulty st')
    = (total3 (difficulty st)
       + count_entries (has_critique (lit "difficulty")) entries)%nat /\
  total3 (useful_derivation st')
    = (total3 (useful_derivation st)
       + count_entries (has_critique (lit "useful_derivation")) entries)%nat /\
  (n_success (refinement st') + n_failure (refinement st'))%nat
    = (n_success (refinement st) + n_failure (refinement st)
       + count_entries (fun e => negb (entry_removed e)) entries)%nat /\
  r_removed (difficulty st')
    = (r_removed (difficulty st)
       + count_entries (fun e => has_critique (lit "difficulty") e && entry_removed e)
           entries)%nat.
Proof.
  unfold count_entries.
  induction entries as [|e entries IH]; intros st st'.
  - intros [= <-]. cbn. lia.
  - cbn [tally_entries]. unfold mbind, result_bind.
    destruct (tally_entry st e) as [st1|] eqn:He; [|discriminate].
    intros Hrest. apply IH in Hrest. apply tally_entry_counts in He.
    cbn [List.filter]. unfold unit_of in He.
    destruct (has_critique (lit "self_containment") e),
      (has_critique (lit "difficulty") e),
      (has_critique (lit "useful_derivation") e),
      (entry_removed e); cbn [negb andb length] in *; lia.
Qed.

(** X3.  The totals of the table are exact counts: each critique row adds
    up to the number of records with an object for that category, the
    refinement row to the number of records that are not removed, and the
    removed column of difficulty is the number of removed records with a
    difficulty object. *)
Theorem category_totals_exact entries st :
  collect_stats (JList entries) = Ok st ->
  total2 (self_containment st)
    = count_entries (has_critique (lit "self_containment")) entries /\
  total3 (difficulty st) = count_entries (has_critique (lit "difficulty")) entries /\
  total3 (useful_derivation st)
    = count_entries (has_critique (lit "useful_derivation")) entries /\
  (n_success (refinement st) + n_failure (refinement st))%nat
    = count_entries (fun e => negb (entry_removed e)) entries /\
  r_removed (difficulty st)
    = count_entries (fun e => has_critique (lit "difficulty") e && entry_removed e)
        entries.
Proof.
  unfold collect_stats. cbn [py_iter mbind result_bind]. intros Hst.
  apply tally_entries_counts in Hst. exact Hst.
Qed.

Lemma category_totals_exact_witness :
  total2 {| n_pass := 3; n_fail := 2 |} = 5%nat /\
  r_removed {| r_pass := 0; r_fail := 4; r_removed := 1 |} = 1%nat.
Proof.
  pose proof (category_totals_exact
    [ verdict_record true false; verdict_record true false;
      verdict_record true false; verdict_record false false;
      verdict_record false true ]
    {| self_containment := {| n_pass := 3; n_fail := 2 |};
       difficulty := {| r_pass := 0; r_fail := 4; r_removed := 1 |};
       useful_derivation := {| r_pass := 0; r_fail := 0; r_removed := 0 |};
       refinement := {| n_success := 4; n_failure := 0 |} |}
    eq_refl) as (Hsc & _ & _ & _ & Hrem).
  split; [exact Hsc | exact Hrem].
Defined.

End Counting.

(** ** Summary Tabulator: the order of the records *)

Section Order.

Lemma pass_fail_plus_zero c : pass_fail_plus c {| n_pass := 0; n_fail := 0 |} = c.
Proof. destruct c. unfold pass_fail_plus. cbn. f_equal; lia. Qed.

Lemma pass_fail_removed_plus_zero c :
  pass_fail_removed_plus c {| r_pass := 0; r_fail := 0; r_removed := 0 |} = c.
Proof. destruct c. unfold pass_fail_removed_plus. cbn. f_equal; lia. Qed.

Lemma success_fail_plus_zero c :
  success_fail_plus c {| n_success := 0; n_failure := 0 |} = c.
Proof. destruct c. unfold success_fail_plus. cbn. f_equal; lia. Qed.

Lemma stats_plus_zero st : stats_plus st initial_stats = st.
Proof.
  destruct st. unfold stats_plus, initial_stats. cbn.
  now rewrite pass_fail_plus_zero, !pass_fail_removed_plus_zero, success_fail_plus_zero.
Qed.

Lemma stats_plus_assoc a b c :
  stats_plus (stats_plus a b) c = stats_plus a (stats_plus b c).
Proof.
  unfold stats_plus, pass_fail_plus, pass_fail_removed_plus, success_fail_plus.
  cbn. f_equal; f_equal; lia.
Qed.

Lemma stats_plus_swap a b c :
  stats_plus (stats_plus a b) c = stats_plus (stats_plus a c) b.
Proof.
  unfold stats_plus, pass_fail_plus, pass_fail_removed_plus, success_fail_plus.
  cbn. f_equal; f_equal; lia.
Qed.

(** Each step adds to the counters what it adds to counters at zero. *)
Lemma tally_self_containment_delta cr c :
  tally_self_containment cr c =
  d ← tally_self_containment cr {| n_pass := 0; n_fail := 0 |};
  mret (pass_fail_plus c d).
Proof.
  unfold tally_self_containment, mbind, result_bind, mret, result_ret.
  destruct (critique_object cr _) as [[d|]|]; [| |reflexivity].
  - destruct (truthy _); destruct c; unfold pass_fail_plus; cbn; repeat f_equal; lia.
  - now rewrite pass_fail_plus_zero.
Qed.

Lemma tally_difficulty_delta cr r c :
  tally_difficulty cr r c =
  d ← tally_difficulty cr r {| r_pass := 0; r_fail := 0; r_removed := 0 |};
  mret (pass_fail_removed_plus c d).
Proof.
  unfold tally_difficulty, mbind, result_bind, mret, result_ret.
  destruct (critique_object cr _) as [[d|]|]; [| |reflexivity].
  - destruct (truthy r); [|destruct (truthy _)]; destruct c;
      unfold pass_fail_removed_plus, incr_removed, incr_pass, incr_fail; cbn;
      repeat f_equal; lia.
  - now rewrite pass_fail_removed_plus_zero.
Qed.

Lemma tally_useful_derivation_delta cr r c :
  tally_useful_derivation cr r c =
  d ← tally_useful_derivation cr r {| r_pass := 0; r_fail := 0; r_removed := 0 |};
  mret (pass_fail_removed_plus c d).
Proof.
  unfold tally_useful_derivation, mbind, result_bind, mret, result_ret.
  destruct (critique_object cr _) as [[d|]|]; [| |reflexivity].
  - destruct (_ && _); [|destruct (truthy _)]; destruct c;
      unfold pass_fail_removed_plus, incr_removed, incr_pass, incr_fail; cbn;
      repeat f_equal; lia.
  - now rewrite pass_fail_removed_plus_zero.
Qed.

Lemma tally_refinement_delta e r c :
  tally_refinement e r c =
  d ← tally_refinement e r {| n_success := 0; n_failure := 0 |};
  mret (success_fail_plus c d).
Proof.
  unfold tally_refinement, mbind, result_bind, mret, result_ret.
  destruct (negb (truthy r)).
  - destruct (py_get e _ _) as [refined|]; [|reflexivity].
    destruct refined; try destruct (negb (has_key _ _)); destruct c;
      unfold success_fail_plus; cbn; repeat f_equal; lia.
  - now rewrite success_fail_plus_zero.
Qed.

Lemma tally_entry_delta st e :
  tally_entry st e = d ← tally_entry initial_stats e; mret (stats_plus st d).
Proof.
  unfold tally_entry.
  destruct (py_get e (lit "critiques") _) as [cr|]; [|reflexivity].
  destruct (py_get e (lit "removed") _) as [r|]; [|reflexivity].
  cbn [mbind result_bind].
  rewrite (tally_self_containment_delta cr (self_containment st)).
  rewrite (tally_difficulty_delta cr r (difficulty st)).
  rewrite (tally_useful_derivation_delta cr r (useful_derivation st)).
  rewrite (tally_refinement_delta e r (refinement st)).
  change (self_containment initial_stats) with {| n_pass := 0; n_fail := 0 |}.
  change (difficulty initial_stats)
    with {| r_pass := 0; r_fail := 0; r_removed := 0 |}.
  change (useful_derivation initial_stats)
    with {| r_pass := 0; r_fail := 0; r_removed := 0 |}.
  change (refinement initial_stats) with {| n_success := 0; n_failure := 0 |}.
  destruct (tally_self_containment cr _) as [sc|]; [|reflexivity].
  cbn [mbind result_bind mret result_ret].
  destruct (tally_difficulty cr r _) as [df|]; [|reflexivity].
  cbn [mbind result_bind mret result_ret].
  destruct (tally_useful_derivation cr r _) as [ud|]; [|reflexivity].
  cbn [mbind result_bind mret result_ret].
  destruct (tally_refinement e r _) as [rf|]; reflexivity.
Qed.

Lemma tally_entry_from st e st' :
  tally_entry st e = Ok st' ->
  exists d, tally_entry initial_stats e = Ok d /\ st' = stats_plus st d.
Proof.
  rewrite tally_entry_delta.
  destruct (tally_entry initial_stats e) as [d|]; [|discriminate].
  cbn [mbind result_bind mret result_ret]. intros [= <-]. now exists d.
Qed.

Lemma tally_entry_to st e d :
  tally_entry initial_stats e = Ok d -> tally_entry st e = Ok (stats_plus st d).
Proof. intros Hd. rewrite tally_entry_delta, Hd. reflexivity. Qed.

Lemma tally_entries_permuted l1 l2 :
  Permutation l1 l2 ->
  forall st st', tally_entries st l1 = Ok st' -> tally_entries st l2 = Ok st'.
Proof.
  induction 1 as [|x l1 l2 _ IH|x y l|l1 l2 l3 _ IH12 _ IH23]; intros st st'.
  - trivial.
  - cbn [tally_entries]. unfold mbind, result_bind.
    destruct (tally_entry st x); [apply IH | discriminate].
  - cbn [tally_entries]. unfold mbind, result_bind.
    destruct (tally_entry st y) as [s1|] eqn:Hy; [|discriminate].
    destruct (tally_entry s1 x) as [s2|] eqn:Hx; [|discriminate].
    apply tally_entry_from in Hy as (dy & Hdy & ->).
    apply tally_entry_from in Hx as (dx & Hdx & ->).
    rewrite (tally_entry_to st x dx Hdx), (tally_entry_to _ y dy Hdy).
    now rewrite (stats_plus_swap st dx dy).
  - intros Hst. now apply IH23, IH12.
Qed.

(** X4.  The statistics do not depend on the order of the records: a list
    that is tallied gives the same counters, and the same table, in any
    other order. *)
Theorem stats_order_independent l1 l2 :
  Permutation l1 l2 ->
  (forall st, collect_stats (JList l1) = Ok st -> collect_stats (JList l2) = Ok st) /\
  (forall table, generate_summary_table (JList l1) = Ok table ->
                 generate_summary_table (JList l2) = Ok table).
Proof.
  intros Hperm.
  assert (forall st, collect_stats (JList l1) = Ok st ->
                     collect_stats (JList l2) = Ok st) as Hstats.
  { unfold collect_stats. cbn [py_iter mbind result_bind].
    intros st. now apply tally_entries_permuted. }
  split; [exact Hstats|].
  intros table. unfold generate_summary_table.
  destruct (collect_stats (JList l1)) as [st|]; [|discriminate].
  now rewrite (Hstats st eq_refl).
Qed.

Lemma stats_order_independent_witness :
  collect_stats (JList [verdict_record false true; verdict_record true false])
  = Ok {| self_containment := {| n_pass := 1; n_fail := 1 |};
          difficulty := {| r_pass := 0; r_fail := 1; r_removed := 1 |};
          useful_derivation := {| r_pass := 0; r_fail := 0; r_removed := 0 |};
          refinement := {| n_success := 1; n_failure := 0 |} |}.
Proof.
  apply (proj1 (stats_order_independent
                  [verdict_record true false; verdict_record false true]
                  [verdict_record false true; verdict_record true false]
                  (perm_swap _ _ []))).
  vm_compute. reflexivity.
Defined.

(** The tabulator reads three keys of a record and nothing else: two
    records that agree on [critiques], [removed] and [refined_problem] are
    counted alike, whatever their other fields. *)
Theorem tally_reads_three_keys st e1 e2 :
  lookup_key (lit "critiques") e1 = lookup_key (lit "critiques") e2 ->
  lookup_key (lit "removed") e1 = lookup_key (lit "removed") e2 ->
  lookup_key (lit "refined_problem") e1 = lookup_key (lit "refined_problem") e2 ->
  tally_entry st (JDict e1) = tally_entry st (JDict e2).
Proof.
  intros Hc Hr Hp. unfold tally_entry, tally_refinement, py_get, dict_get.
  now rewrite Hc, Hr, Hp.
Qed.

Lemma tally_reads_three_keys_witness :
  tally_entry initial_stats
    (JDict [ (lit "included_in_dataset", JBool false); (lit "removed", JBool false) ])
  = tally_entry initial_stats (JDict [ (lit "removed", JBool false) ]).
Proof.
  apply (tally_reads_three_keys initial_stats
           [ (lit "included_in_dataset", JBool false); (lit "removed", JBool false) ]
           [ (lit "removed", JBool false) ]); reflexivity.
Defined.

End Order.

(** ** Math-Block Formatter: whitespace, delimiters, size *)

Section Blocks.

Lemma lstrip_spaces ws s : forallb is_space ws = true -> lstrip (ws ++ s) = lstrip s.
Proof.
  induction ws as [|c ws IH]; [reflexivity|].
  cbn [forallb app lstrip]. intros [-> Hws]%andb_prop. now apply IH.
Qed.

Lemma forallb_rev {A} (f : A -> bool) l : forallb f (rev l) = forallb f l.
Proof.
  induction l as [|x l IH]; [reflexivity|].
  cbn [rev forallb]. rewrite forallb_app, IH. cbn [forallb].
  rewrite andb_true_r. apply andb_comm.
Qed.

Lemma rstrip_spaces s ws : forallb is_space ws = true -> rstrip (s ++ ws) = rstrip s.
Proof.
  intros Hws. unfold rstrip. rewrite rev_app_distr.
  now rewrite lstrip_spaces by (now rewrite forallb_rev).
Qed.

Lemma lstrip_app s t : lstrip s <> [] -> lstrip (s ++ t) = lstrip s ++ t.
Proof.
  induction s as [|c s IH]; [easy|].
  cbn [app lstrip]. destruct (is_space c); [exact IH | reflexivity].
Qed.

Lemma lstrip_nil_spaces s : lstrip s = [] -> forallb is_space s = true.
Proof.
  induction s as [|c s IH]; [reflexivity|].
  cbn [lstrip forallb]. destruct (is_space c); [exact IH | discriminate].
Qed.

Lemma strip_spaces_around ws s ws' :
  forallb is_space ws = true -> forallb is_space ws' = true ->
  strip (ws ++ s ++ ws') = strip s.
Proof.
  intros Hws Hws'. unfold strip. rewrite lstrip_spaces by exact Hws.
  destruct (lstrip s) as [|c t] eqn:Hs.
  - apply lstrip_nil_spaces in Hs.
    replace (s ++ ws') with ((s ++ ws') ++ []) by apply app_nil_r.
    rewrite lstrip_spaces; [reflexivity|].
    rewrite forallb_app, Hs, Hws'. reflexivity.
  - rewrite lstrip_app by (rewrite Hs; discriminate).
    rewrite Hs. now apply rstrip_spaces.
Qed.

Lemma strip_idem s : strip (strip s) = strip s.
Proof. apply strip_of_stripped, strip_stripped. Qed.

(** X5.  Whitespace around a solution does not matter to the formatter. *)
Theorem format_ignores_outer_whitespace ws s ws' :
  forallb is_space ws = true ->
  forallb is_space ws' = true ->
  format_tex_display_math (JStr (ws ++ s ++ ws')) = format_tex_display_math (JStr s).
Proof.
  intros Hws Hws'. cbn [format_tex_display_math]. do 2 f_equal.
  unfold unwrap_delimiters. now rewrite strip_spaces_around.
Qed.

Lemma format_ignores_outer_whitespace_witness :
  format_tex_display_math (JStr ([32; NL] ++ lit "$x$" ++ [9]))
  = format_tex_display_math (JStr (lit "$x$")).
Proof.
  apply (format_ignores_outer_whitespace [32; NL] (lit "$x$") [9]); reflexivity.
Defined.

Lemma stripped_between a x z :
  is_space a = false -> is_space z = false -> stripped (a :: x ++ [z]).
Proof.
  intros Ha Hz. split; [now apply lstrip_keeps|].
  change (a :: x ++ [z]) with ((a :: x) ++ [z]). now apply rstrip_keeps.
Qed.

Lemma strip_head c s : is_space c = false -> exists t, strip (c :: s) = c :: t.
Proof.
  intros Hc. unfold strip. rewrite lstrip_keeps, rstrip_cons by exact Hc.
  now exists (rstrip s).
Qed.

(** The steps after the one that unwraps leave a body alone that starts
    with none of the later delimiters. *)
Lemma unwrap_tail t :
  stripped t ->
  starts_with (lit "\(") t = false ->
  starts_with (lit "$") t = false ->
  strip (re_sub_unwrap (lit "$") (lit "$")
    (strip (re_sub_unwrap (lit "$$") (lit "$$")
      (strip (re_sub_unwrap (lit "\(") (lit "\)") t))))) = t.
Proof.
  intros Ht Hparen Hdollar.
  rewrite (re_sub_unwrap_no_prefix _ _ _ Hparen), (strip_of_stripped _ Ht).
  rewrite (re_sub_unwrap_no_prefix _ _ _ (starts_with_dollars _ Hdollar)),
    (strip_of_stripped _ Ht).
  rewrite (re_sub_unwrap_no_prefix _ _ _ Hdollar).
  now apply strip_of_stripped.
Qed.

Lemma dollar_body_not_doubled m :
  starts_with (lit "$") (strip m) = false ->
  re_sub_unwrap (lit "$$") (lit "$$") (lit "$" ++ m ++ lit "$")
  = lit "$" ++ m ++ lit "$".
Proof.
  intros Hdollar. destruct m as [|c m]; [reflexivity|].
  apply re_sub_unwrap_no_prefix.
  change (lit "$$") with [36; 36]. change (lit "$") with [36].
  cbn [app starts_with]. rewrite N.eqb_refl. cbn [andb].
  destruct (36 =? c) eqn:Hc; [|reflexivity].
  apply N.eqb_eq in Hc. subst c.
  destruct (strip_head 36 m eq_refl) as [t Ht]. rewrite Ht in Hdollar.
  discriminate Hdollar.
Qed.

Lemma stripped_delimited op cl m :
  op <> [] -> cl <> [] -> stripped op -> stripped cl -> stripped (op ++ m ++ cl).
Proof.
  intros Hop Hcl [Hl _] [_ Hr].
  destruct op as [|a op]; [easy|]. apply lstrip_fixed_head in Hl.
  unfold rstrip in Hr. apply (f_equal (@rev char)) in Hr.
  rewrite rev_involutive in Hr.
  destruct (rev cl) as [|z r] eqn:Hrev.
  - apply (f_equal (@rev char)) in Hrev. rewrite rev_involutive in Hrev. easy.
  - apply lstrip_fixed_head in Hr.
    apply (f_equal (@rev char)) in Hrev. rewrite rev_involutive in Hrev.
    cbn [rev] in Hrev. subst cl.
    replace ((a :: op) ++ m ++ rev r ++ [z]) with (a :: (op ++ m ++ rev r) ++ [z])
      by (cbn [app]; now rewrite <- !app_assoc).
    now apply stripped_between.
Qed.

Lemma display_delimiters_stripped :
  stripped (lit "\[") /\ stripped (lit "\]") /\ stripped (lit "\(") /\
  stripped (lit "\)") /\ stripped (lit "$$") /\ stripped (lit "$").
Proof. repeat split; reflexivity. Qed.

(** X6.  The four delimiter pairs are equivalent: a body with no line
    break whose stripped text starts with no inline or dollar delimiter
    gives the same display block under each of them. *)
Theorem format_unwraps_each_pair m :
  no_newline m = true ->
  starts_with (lit "\(") (strip m) = false ->
  starts_with (lit "$") (strip m) = false ->
  format_tex_display_math (JStr (lit "\[" ++ m ++ lit "\]"))
    = lit "\[ " ++ strip m ++ lit " \]" /\
  format_tex_display_math (JStr (lit "\(" ++ m ++ lit "\)"))
    = lit "\[ " ++ strip m ++ lit " \]" /\
  format_tex_display_math (JStr (lit "$$" ++ m ++ lit "$$"))
    = lit "\[ " ++ strip m ++ lit " \]" /\
  format_tex_display_math (JStr (lit "$" ++ m ++ lit "$"))
    = lit "\[ " ++ strip m ++ lit " \]".
Proof.
  intros Hnl Hparen Hdollar.
  pose proof (strip_stripped m) as Ht.
  pose proof (unwrap_tail _ Ht Hparen Hdollar) as Htail.
  destruct display_delimiters_stripped as (Ho1 & Hc1 & Ho2 & Hc2 & Hd2 & Hd1).
  assert (stripped (lit "\[" ++ m ++ lit "\]")) as Hs1
    by (now apply stripped_delimited).
  assert (stripped (lit "\(" ++ m ++ lit "\)")) as Hs2
    by (now apply stripped_delimited).
  assert (stripped (lit "$$" ++ m ++ lit "$$")) as Hs3
    by (now apply stripped_delimited).
  assert (stripped (lit "$" ++ m ++ lit "$")) as Hs4
    by (now apply stripped_delimited).
  cbn [format_tex_display_math]. unfold unwrap_delimiters.
  repeat split; do 2 f_equal.
  - rewrite (strip_of_stripped _ Hs1), (re_sub_unwrap_wrapped _ _ _ Hnl).
    exact Htail.
  - rewrite (strip_of_stripped _ Hs2).
    rewrite (re_sub_unwrap_no_prefix (lit "\[")) by reflexivity.
    rewrite (strip_of_stripped _ Hs2), (re_sub_unwrap_wrapped _ _ _ Hnl).
    rewrite (re_sub_unwrap_no_prefix _ _ _ (starts_with_dollars _ Hdollar)),
      (strip_idem m).
    rewrite (re_sub_unwrap_no_prefix _ _ _ Hdollar). now rewrite ?strip_idem.
  - rewrite (strip_of_stripped _ Hs3).
    rewrite (re_sub_unwrap_no_prefix (lit "\[")) by reflexivity.
    rewrite (strip_of_stripped _ Hs3).
    rewrite (re_sub_unwrap_no_prefix (lit "\(")) by reflexivity.
    rewrite (strip_of_stripped _ Hs3), (re_sub_unwrap_wrapped _ _ _ Hnl).
    rewrite (re_sub_unwrap_no_prefix _ _ _ Hdollar). now rewrite ?strip_idem.
  - rewrite (strip_of_stripped _ Hs4).
    rewrite (re_sub_unwrap_no_prefix (lit "\[")) by reflexivity.
    rewrite (strip_of_stripped _ Hs4).
    rewrite (re_sub_unwrap_no_prefix (lit "\(")) by reflexivity.
    rewrite (strip_of_stripped _ Hs4).
    rewrite (dollar_body_not_doubled _ Hdollar), (strip_of_stripped _ Hs4).
    rewrite (re_sub_unwrap_wrapped _ _ _ Hnl). now rewrite ?strip_idem.
Qed.

Lemma format_unwraps_each_pair_witness :
  format_tex_display_math (JStr (lit "\(" ++ lit " x = 1 " ++ lit "\)"))
  = lit "\[ " ++ strip (lit " x = 1 ") ++ lit " \]".
Proof.
  apply (proj1 (proj2 (format_unwraps_each_pair (lit " x = 1 ")
                         eq_refl eq_refl eq_refl))).
Defined.

Lemma rstrip_length s : (length (rstrip s) <= length s)%nat.
Proof.
  unfold rstrip. rewrite length_rev.
  pose proof (lstrip_length (rev s)) as Hlen. now rewrite length_rev in Hlen.
Qed.

Lemma strip_length s : (length (strip s) <= length s)%nat.
Proof.
  unfold strip. pose proof (rstrip_length (lstrip s)). pose proof (lstrip_length s).
  lia.
Qed.

Lemma strip_prefix_length p s r :
  strip_prefix p s = Some r -> (length r <= length s)%nat.
Proof.
  unfold strip_prefix. destruct (starts_with p s); [|discriminate].
  intros [= <-]. rewrite length_drop. lia.
Qed.

Lemma strip_suffix_length suf s m :
  strip_suffix suf s = Some m -> (length m + length suf <= length s)%nat.
Proof.
  unfold strip_suffix, strip_prefix.
  destruct (starts_with (rev suf) (rev s)) eqn:Hstart; [|discriminate].
  intros [= <-]. rewrite length_rev, length_drop, !length_rev.
  assert (forall p t, starts_with p t = true -> (length p <= length t)%nat) as Hle.
  { induction p as [|a p IH]; intros [|b t]; cbn [starts_with length];
      try discriminate; try lia.
    intros [_ Hrest]%andb_prop. apply IH in Hrest. lia. }
  apply Hle in Hstart. rewrite !length_rev in Hstart. lia.
Qed.

Lemma re_sub_unwrap_length op cl s :
  (length (re_sub_unwrap op cl s) <= length s)%nat.
Proof.
  unfold re_sub_unwrap.
  destruct (strip_prefix op s) as [rest|] eqn:Hp; [|lia].
  apply strip_prefix_length in Hp.
  destruct (strip_suffix cl rest) as [m|] eqn:Hs.
  - apply strip_suffix_length in Hs. destruct (no_newline m); lia.
  - destruct (strip_suffix (cl ++ [NL]) rest) as [m|] eqn:Hs'; [|lia].
    apply strip_suffix_length in Hs'. rewrite length_app in Hs'. cbn [length] in Hs'.
    destruct (no_newline m); [|lia]. rewrite length_app. cbn [length]. lia.
Qed.

(** X7.  The formatter always gives one display block: the output is the
    opening delimiter, a body with no whitespace at either end and the
    closing delimiter; the body is never longer than the input, so the
    output is at most six characters longer. *)
Theorem format_gives_one_block s :
  exists body,
    format_tex_display_math (JStr s) = lit "\[ " ++ body ++ lit " \]" /\
    stripped body /\
    (length body <= length s)%nat /\
    (length (format_tex_display_math (JStr s)) <= length s + 6)%nat.
Proof.
  exists (unwrap_delimiters s).
  assert (length (unwrap_delimiters s) <= length s)%nat as Hlen.
  { unfold unwrap_delimiters.
    repeat match goal with
           | |- (length (strip ?x) <= _)%nat =>
               etransitivity; [apply strip_length|]
           | |- (length (re_sub_unwrap ?o ?c ?x) <= _)%nat =>
               etransitivity; [apply re_sub_unwrap_length|]
           end.
    reflexivity. }
  split; [reflexivity|]. split; [apply strip_stripped|]. split; [exact Hlen|].
  cbn [format_tex_display_math]. rewrite !length_app.
  change (length (lit "\[ ")) with 3%nat. change (length (lit " \]")) with 3%nat. lia.
Qed.

End Blocks.

(** ** Text Escaper and brace repair: further properties *)

Section EscapeRepair.

Lemma escape_str_app a b : escape_str (a ++ b) = escape_str a ++ escape_str b.
Proof. unfold escape_str, re_sub_class. apply flat_map_app. Qed.

Lemma escape_str_plain s :
  forallb (fun c => negb (reserved c)) s = true -> escape_str s = s.
Proof.
  induction s as [|c s IH]; [reflexivity|].
  cbn [forallb]. intros [Hc Hs]%andb_prop. apply negb_true_iff in Hc.
  rewrite escape_str_cons, Hc. now rewrite IH.
Qed.

Lemma filter_nil_forallb (f : char -> bool) s :
  List.filter f s = [] -> forallb (fun c => negb (f c)) s = true.
Proof.
  induction s as [|c s IH]; [reflexivity|].
  cbn [List.filter forallb]. destruct (f c); [discriminate|]. exact IH.
Qed.

(** X8.  The escaper changes a string exactly when it has a reserved
    character, and works piece by piece: the escape of a concatenation is
    the concatenation of the escapes. *)
Theorem escape_latex_plain_and_pieces :
  (forall s, escape_latex (JStr s) = s <->
             forallb (fun c => negb (reserved c)) s = true) /\
  (forall a b, escape_latex (JStr (a ++ b))
               = escape_latex (JStr a) ++ escape_latex (JStr b)).
Proof.
  split.
  - intros s. change (escape_latex (JStr s)) with (escape_str s). split.
    + intros Heq. apply filter_nil_forallb.
      pose proof (escape_str_length s) as Hlen. rewrite Heq in Hlen.
      destruct (List.filter reserved s); [reflexivity|]. cbn [length] in Hlen. lia.
    + apply escape_str_plain.
  - intros a b. apply escape_str_app.
Qed.

Lemma escape_latex_plain_and_pieces_witness :
  escape_latex (JStr (lit "x^2 + y~z \ w")) = lit "x^2 + y~z \ w".
Proof.
  apply (proj1 escape_latex_plain_and_pieces (lit "x^2 + y~z \ w")). reflexivity.
Defined.

(** X9.  On a string the repair never fails, only appends closing braces,
    leaves no excess of open braces when the construct is there, and changes
    nothing when applied again. *)
Theorem repair_boxed_settles (s : str) :
  exists n,
    repair_boxed (JStr s) = Ok (JStr (s ++ repeat CLOSE_BRACE n)) /\
    (contains (lit "\boxed{") s = true ->
     (count_char OPEN_BRACE (s ++ repeat CLOSE_BRACE n)
      <= count_char CLOSE_BRACE (s ++ repeat CLOSE_BRACE n))%nat) /\
    repair_boxed (JStr (s ++ repeat CLOSE_BRACE n))
    = Ok (JStr (s ++ repeat CLOSE_BRACE n)).
Proof.
  rewrite repair_boxed_str.
  destruct (contains (lit "\boxed{") s) eqn:Hb.
  - destruct (Nat.eqb_spec (count_char OPEN_BRACE s) (count_char CLOSE_BRACE s))
      as [Heq|Hne]; cbn [negb].
    + exists 0%nat. cbn [repeat]. rewrite app_nil_r.
      split; [reflexivity|]. split; [intros _; lia|].
      rewrite repair_boxed_str, Hb, Heq, Nat.eqb_refl. reflexivity.
    + destruct (Nat.ltb_spec (count_char CLOSE_BRACE s) (count_char OPEN_BRACE s))
        as [Hlt|Hge].
      * exists (count_char OPEN_BRACE s - count_char CLOSE_BRACE s)%nat.
        split; [reflexivity|].
        assert (count_char OPEN_BRACE
                  (s ++ repeat CLOSE_BRACE
                          (count_char OPEN_BRACE s - count_char CLOSE_BRACE s))
                = count_char CLOSE_BRACE
                    (s ++ repeat CLOSE_BRACE
                            (count_char OPEN_BRACE s - count_char CLOSE_BRACE s)))
          as Hbal.
        { rewrite !count_char_app, count_char_repeat_same.
          rewrite count_char_repeat_other by discriminate. lia. }
        split; [intros _; lia|].
        rewrite repair_boxed_str, Hbal, Nat.eqb_refl. cbn [negb].
        destruct (contains (lit "\boxed{") (s ++ _)); reflexivity.
      * exists 0%nat. cbn [repeat]. rewrite app_nil_r.
        split; [reflexivity|]. split; [intros _; lia|].
        rewrite repair_boxed_str, Hb.
        destruct (negb _); [|reflexivity].
        destruct (Nat.ltb_spec (count_char CLOSE_BRACE s) (count_char OPEN_BRACE s));
          [lia | reflexivity].
  - exists 0%nat. cbn [repeat]. rewrite app_nil_r.
    split; [reflexivity|]. split; [discriminate|].
    now rewrite repair_boxed_str, Hb.
Qed.

End EscapeRepair.

Lemma repair_boxed_settles_witness :
  exists n,
    repair_boxed (JStr (lit "\boxed{\frac{1}{2}"))
    = Ok (JStr (lit "\boxed{\frac{1}{2}" ++ repeat CLOSE_BRACE n)) /\
    (count_char OPEN_BRACE (lit "\boxed{\frac{1}{2}" ++ repeat CLOSE_BRACE n)
     <= count_char CLOSE_BRACE (lit "\boxed{\frac{1}{2}" ++ repeat CLOSE_BRACE n))%nat.
Proof.
  destruct (repair_boxed_settles (lit "\boxed{\frac{1}{2}")) as (n & Hrun & Hbal & _).
  exists n. split; [exact Hrun | apply Hbal; reflexivity].
Defined.

(** ** Record Renderer: further properties *)

Section Records.
Context `{PyEnv}.

Lemma render_entries_app l1 : forall i l2,
  render_entries i (l1 ++ l2) =
  t1 ← render_entries i l1;
  t2 ← render_entries (i + length l1) l2;
  mret (t1 ++ t2).
Proof.
  induction l1 as [|e l1 IH]; intros i l2.
  - cbn [app render_entries length mbind result_bind mret result_ret].
    rewrite Nat.add_0_r. now destruct (render_entries i l2).
  - cbn [app render_entries length].
    destruct (render_entry i e) as [t|]; [|reflexivity].
    cbn [mbind result_bind]. rewrite IH.
    replace (S i + length l1)%nat with (i + S (length l1))%nat by lia.
    destruct (render_entries (S i) l1) as [t1|]; [|reflexivity].
    cbn [mbind result_bind mret result_ret].
    destruct (render_entries _ l2) as [t2|]; [|reflexivity].
    cbn [mbind result_bind mret result_ret]. now rewrite app_assoc.
Qed.

(** X10.  Records are rendered one after the other in input order: the
    section of a list followed by another is the section of the first, then
    the records of the second numbered on from where the first stopped; an
    exception in either part is the exception of the whole. *)
Theorem generate_critiques_section_app l1 l2 :
  generate_critiques_section (JList (l1 ++ l2)) =
  first ← generate_critiques_section (JList l1);
  rest ← render_entries (length l1) l2;
  mret (first ++ rest).
Proof.
  unfold generate_critiques_section. cbn [py_iter mbind result_bind].
  rewrite render_entries_app. cbn [Nat.add].
  destruct (render_entries 0 l1) as [t1|]; [|reflexivity].
  cbn [mbind result_bind mret result_ret].
  destruct (render_entries (length l1) l2) as [t2|]; [|reflexivity].
  cbn [mbind result_bind mret result_ret]. now rewrite <- !app_assoc.
Qed.

Lemma picked_key k1 k2 dflt d :
  dict_get (if has_key k1 d then k1 else k2) dflt d
  = default dflt (first_present k1 k2 d).
Proof.
  unfold has_key, first_present, dict_get.
  destruct (lookup_key k1 d) as [v|] eqn:Hk; [now rewrite Hk | reflexivity].
Qed.

(** X11.  The two names of a refined field are an ordered fallback:
    [problem_statement] before [question] and [final_solution] before
    [answer].  Two refined problems that agree on the presence of [error]
    and on the first present name of each field are rendered alike. *)
Theorem render_refined_key_fallback d1 d2 :
  has_key (lit "error") d1 = has_key (lit "error") d2 ->
  first_present (lit "problem_statement") (lit "question") d1
    = first_present (lit "problem_statement") (lit "question") d2 ->
  first_present (lit "final_solution") (lit "answer") d1
    = first_present (lit "final_solution") (lit "answer") d2 ->
  render_refined (JDict d1) = render_refined (JDict d2).
Proof.
  intros He Hp Hs. unfold render_refined. cbv zeta.
  now rewrite !picked_key, He, Hp, Hs.
Qed.

End Records.

Lemma render_refined_key_fallback_witness :
  @render_refined example_env
    (JDict [ (lit "question", JStr (lit "Q")); (lit "answer", JStr (lit "$a$")) ])
  = @render_refined example_env
      (JDict [ (lit "problem_statement", JStr (lit "Q"));
               (lit "question", JStr (lit "ignored"));
               (lit "final_solution", JStr (lit "$a$")) ]).
Proof.
  apply (@render_refined_key_fallback example_env
           [ (lit "question", JStr (lit "Q")); (lit "answer", JStr (lit "$a$")) ]
           [ (lit "problem_statement", JStr (lit "Q"));
             (lit "question", JStr (lit "ignored"));
             (lit "final_solution", JStr (lit "$a$")) ]); reflexivity.
Defined.

(** ** Tabulator and renderer together *)

Section Together.
Context `{PyEnv}.

(** X12.  The table and the report agree on a failed refinement: for a
    record that is neither removed nor excluded, the tabulator counts a
    refinement failure exactly when the outcome in the report is the
    refined-problem heading followed by the error notice. *)
Theorem refinement_failure_is_error_notice e c :
  truthy (dict_get (lit "removed") (JBool false) e) = false ->
  truthy (dict_get (lit "included_in_dataset") (JBool true) e) = true ->
  tally_refinement (JDict e) (dict_get (lit "removed") (JBool false) e) c
    = Ok {| n_success := n_success c; n_failure := S (n_failure c) |}
  <-> render_outcome (JDict e) = Ok (REFINED_HEADING ++ REFINE_ERROR_NOTICE).
Proof.
  intros Hr Hi. rewrite tally_refinement_dict, Hr.
  unfold render_outcome. cbn [py_get mbind result_bind]. rewrite Hr, Hi. cbn [negb].
  unfold refinement_succeeds, dict_get.
  assert (forall a b : str, Ok a = Ok b -> a = b) as Hinj
    by (intros a b [= ->]; reflexivity).
  assert (forall d, has_key (lit "error") d = false ->
            (body ← render_refined (JDict d); mret (REFINED_HEADING ++ body))
            <> Ok (REFINED_HEADING ++ REFINE_ERROR_NOTICE)) as Hrefined.
  { intros d Herr. cbn [render_refined]. rewrite Herr. cbn [negb].
    destruct (repair_boxed _) as [sol|]; [|discriminate].
    cbn [mbind result_bind mret result_ret]. intros Heq.
    apply Hinj, app_inv_head in Heq.
    apply (f_equal (take 2)) in Heq. vm_compute in Heq. discriminate Heq. }
  assert (forall s f : nat,
            Ok {| n_success := S s; n_failure := f |}
            <> Ok {| n_success := s; n_failure := S f |}) as Hcount.
  { intros s f [= Hs _]. lia. }
  destruct (lookup_key (lit "refined_problem") e) as [v|].
  - destruct v as [| | | | | |d]; try (split; reflexivity).
    destruct (has_key (lit "error") d) eqn:Herr; cbn [negb].
    + split; intros _; [|reflexivity]. cbn [render_refined]. now rewrite Herr.
    + split; intros Heq; [now apply Hcount in Heq | now apply Hrefined in Heq].
  - split; intros Heq; [now apply Hcount in Heq|].
    now apply (Hrefined [] eq_refl) in Heq.
Qed.

(** X13.  A record that is excluded is still counted by the tabulator: a
    record that is not removed, not included in the dataset and whose
    refined problem is fine adds a refinement success to the table, while
    the report shows the exclusion notice for it. *)
Theorem excluded_record_counts_success st e c :
  dict_get (lit "critiques") (JDict []) e = JDict c ->
  truthy (dict_get (lit "removed") (JBool false) e) = false ->
  truthy (dict_get (lit "included_in_dataset") (JBool true) e) = false ->
  refinement_succeeds e = true ->
  exists st',
    tally_entry st (JDict e) = Ok st' /\
    refinement st' = {| n_success := S (n_success (refinement st));
                        n_failure := n_failure (refinement st) |} /\
    render_outcome (JDict e) = Ok (STATUS_HEADING ++ EXCLUSION_NOTICE).
Proof.
  intros Hc Hr Hi Hok.
  destruct (tally_entry_dict st e c Hc) as (st' & Hst & _ & _ & _ & Hrf).
  exists st'. split; [exact Hst|]. split.
  - rewrite tally_refinement_dict, Hr, Hok in Hrf. now injection Hrf as <-.
  - unfold render_outcome. cbn [py_get mbind result_bind]. now rewrite Hr, Hi.
Qed.

(** X14.  The top level of the data must be an array.  An object or a
    string with something in it is walked through its keys or characters,
    which have no fields, so both passes raise; a number, a boolean or null
    cannot be walked at all; an empty object or string is an empty report. *)
Theorem top_level_must_be_array data :
  match data with
  | JList _ => True
  | JDict [] | JStr [] =>
      generate_summary_table data = generate_summary_table (JList []) /\
      generate_critiques_section data = generate_critiques_section (JList [])
  | JDict _ | JStr _ =>
      generate_summary_table data = Raise AttributeError /\
      generate_critiques_section data = Raise AttributeError
  | _ =>
      generate_summary_table data = Raise TypeError /\
      generate_critiques_section data = Raise TypeError
  end.
Proof.
  destruct data as [| | | |s|l|kvs]; try exact I; try (split; reflexivity).
  - destruct s; split; reflexivity.
  - destruct kvs; split; reflexivity.
Qed.

End Together.

Lemma refinement_failure_is_error_notice_witness :
  @render_outcome example_env (JDict [ (lit "refined_problem", JStr (lit "none")) ])
  = Ok (REFINED_HEADING ++ REFINE_ERROR_NOTICE).
Proof.
  apply (proj1 (@refinement_failure_is_error_notice example_env
                  [ (lit "refined_problem", JStr (lit "none")) ]
                  {| n_success := 0; n_failure := 0 |} eq_refl eq_refl)).
  reflexivity.
Defined.

Lemma excluded_record_counts_success_witness :
  exists st',
    tally_entry initial_stats (JDict [ (lit "included_in_dataset", JBool false) ])
    = Ok st' /\
    refinement st' = {| n_success := 1; n_failure := 0 |} /\
    @render_outcome example_env (JDict [ (lit "included_in_dataset", JBool false) ])
    = Ok (STATUS_HEADING ++ EXCLUSION_NOTICE).
Proof.
  apply (@excluded_record_counts_success example_env initial_stats
           [ (lit "included_in_dataset", JBool false) ] []); reflexivity.
Defined.

(** ** The rate cell and the run *)

(** X15.  The rate cell of a row is the not-applicable marker exactly
    when the row counts nothing; otherwise it is a number followed by the
    escaped percent sign. *)
Theorem rate_cell_not_applicable (r : row) :
  (row_rate r = lit "N/A" <-> row_total r = 0%nat) /\
  (row_total r <> 0%nat -> exists number, row_rate r = number ++ lit "\%").
Proof.
  unfold row_rate. split; [apply pass_rate_not_applicable|].
  intros Hpos. unfold pass_rate.
  destruct (row_total r) as [|n]; [easy|].
  change (0 <? S n)%nat with true. cbn iota. now eexists.
Qed.

Lemma rate_cell_not_applicable_witness :
  exists number,
    row_rate {| type_name := lit "Difficulty"; pass_count := 1; fail_count := 2;
                removed_count := 0 |} = number ++ lit "\%".
Proof.
  apply (proj2 (rate_cell_not_applicable
                  {| type_name := lit "Difficulty"; pass_count := 1; fail_count := 2;
                     removed_count := 0 |})).
  discriminate.
Defined.

Section Frame.
Context `{PyEnv}.

Lemma write_file_inv w path text :
  write_file w path text = (w, snd (write_file w path text)) \/
  write_file w path text = (set_file w path (File []), Some UnicodeEncodeError) \/
  write_file w path text = (set_file w path (File text), None).
Proof.
  unfold write_file, open_for_writing.
  destruct (files w !! path) as [[content|]|]; [| now left |].
  - destruct (encodable text); [right; right | right; left];
      cbn; now rewrite ?set_file_twice.
  - destruct (creatable w path); [|now left].
    destruct (encodable text); [right; right | right; left];
      cbn; now rewrite ?set_file_twice.
Qed.

(** X16.  A run touches nothing but the output path: every other path
    keeps what it had.  A run that ends in an exception prints nothing and
    leaves the files as it found them, except for an exception raised while
    writing, which leaves the output file empty. *)
Theorem export_touches_only_output (w : world) (critiques_file output_tex_file : string) :
  (forall path, path <> output_tex_file ->
     files (fst (export_critiques_to_tex w critiques_file output_tex_file)) !! path
     = files w !! path) /\
  (forall e, snd (export_critiques_to_tex w critiques_file output_tex_file) = Some e ->
     printed (fst (export_critiques_to_tex w critiques_file output_tex_file))
     = printed w /\
     (fst (export_critiques_to_tex w critiques_file output_tex_file) = w \/
      e = UnicodeEncodeError /\
      fst (export_critiques_to_tex w critiques_file output_tex_file)
      = set_file w output_tex_file (File []))).
Proof.
  unfold export_critiques_to_tex.
  destruct (negb (path_exists w critiques_file)); [split; [reflexivity | discriminate]|].
  destruct (read_file w critiques_file) as [text|];
    [|split; [reflexivity | intros ? _; split; [reflexivity | now left]]].
  cbn [mbind result_bind].
  destruct (json_loads text) as [data|];
    [|split; [reflexivity | intros ? _; split; [reflexivity | now left]]].
  cbn [mbind result_bind].
  destruct (assemble data) as [tex|];
    [|split; [reflexivity | intros ? _; split; [reflexivity | now left]]].
  destruct (write_file_inv w output_tex_file tex) as [Hw|[Hw|Hw]]; rewrite Hw.
  - destruct (snd (write_file w output_tex_file tex)) as [e0|].
    + split; [reflexivity | intros ? _; split; [reflexivity | now left]].
    + split; [reflexivity | discriminate].
  - split.
    + intros path Hne. cbn. now apply lookup_insert_ne.
    + intros ? [= <-]. split; [reflexivity | now right].
  - split; [|discriminate].
    intros path Hne. cbn. now apply lookup_insert_ne.
Qed.

End Frame.

Lemma export_touches_only_output_witness :
  files (fst (@export_critiques_to_tex report_env world_with_surrogate
                "critiques.json" "report.tex")) !! "critiques.json"%string
  = files world_with_surrogate !! "critiques.json"%string /\
  printed (fst (@export_critiques_to_tex report_env world_with_surrogate
                  "critiques.json" "report.tex"))
  = printed world_with_surrogate.
Proof.
  split.
  - apply (proj1 (@export_touches_only_output report_env world_with_surrogate
                    "critiques.json" "report.tex")).
    discriminate.
  - apply (proj2 (@export_touches_only_output report_env world_with_surrogate
                    "critiques.json" "report.tex") UnicodeEncodeError).
    vm_compute. reflexivity.
Defined.

(** ** What a reader of the report sees *)

Section Reading.
Context `{PyEnv}.

(** X17.  The colour of a status line follows the flag of its category:
    for a critique object with no [error] key that is rendered, the line is
    in the pass colour when the flag is truthy and in the fail colour when
    it is falsy or missing. *)
Theorem status_colour_follows_flag critique_type flag d out :
  In (critique_type, flag)
     [ (lit "self_containment", lit "is_self_contained");
       (lit "difficulty", lit "is_non_trivial");
       (lit "useful_derivation", lit "is_useful_derivation") ] ->
  has_key (lit "error") d = false ->
  format_critique_section critique_type (JDict d) = Ok out ->
  starts_with (lit "\textcolor{pass}{\textbf{Status: ") out
    = truthy (dict_get flag (JBool false) d) /\
  starts_with (lit "\textcolor{fail}{\textbf{Status: ") out
    = negb (truthy (dict_get flag (JBool false) d)).
Proof.
  intros Hin Herr. cbn [format_critique_section]. rewrite Herr. cbn [negb].
  assert (critique_status critique_type d
          = (dict_get flag (JBool false) d,
             snd (critique_status critique_type d))) as Hstatus.
  { cbn [In] in Hin.
    destruct Hin as [[= <- <-]|[[= <- <-]|[[= <- <-]|[]]]]; reflexivity. }
  rewrite Hstatus. clear Hstatus.
  set (status_text := snd (critique_status critique_type d)).
  assert (forall tail color,
            color = (if truthy (dict_get flag (JBool false) d)
                     then lit "pass" else lit "fail") ->
            starts_with (lit "\textcolor{pass}{\textbf{Status: ")
              ((lit "\textcolor{" ++ color ++ lit "}{\textbf{Status: "
                ++ status_text ++ lit "}}" ++ [NL; NL]) ++ tail)
            = truthy (dict_get flag (JBool false) d) /\
            starts_with (lit "\textcolor{fail}{\textbf{Status: ")
              ((lit "\textcolor{" ++ color ++ lit "}{\textbf{Status: "
                ++ status_text ++ lit "}}" ++ [NL; NL]) ++ tail)
            = negb (truthy (dict_get flag (JBool false) d))) as Hline.
  { intros tail color ->.
    destruct (truthy (dict_get flag (JBool false) d)); split; reflexivity. }
  destruct (truthy (dict_get (lit "issues") (JList []) d)).
  - destruct (py_iter _) as [items|]; [|discriminate].
    cbn [mbind result_bind].
    destruct (format_issues items) as [body|]; [|discriminate].
    cbn [mbind result_bind mret result_ret]. intros Hout.
    assert (out = (lit "\textcolor{"
                   ++ (if truthy (dict_get flag (JBool false) d)
                       then lit "pass" else lit "fail")
                   ++ lit "}{\textbf{Status: " ++ status_text ++ lit "}}" ++ [NL; NL])
                  ++ py_str (dict_get (lit "critique")
                               (JStr (lit "No critique provided")) d)
                  ++ [NL; NL] ++ line "\textbf{Issues found:}"
                  ++ line "\begin{itemize}" ++ body ++ line "\end{itemize}") as ->.
    { assert (forall a b : str, Ok a = Ok b -> b = a) as Hinj
        by (intros a b [= ->]; reflexivity).
      apply Hinj in Hout. rewrite Hout. now rewrite <- !app_assoc. }
    now apply Hline.
  - cbn [mret result_ret]. intros Hout.
    assert (out = (lit "\textcolor{"
                   ++ (if truthy (dict_get flag (JBool false) d)
                       then lit "pass" else lit "fail")
                   ++ lit "}{\textbf{Status: " ++ status_text ++ lit "}}" ++ [NL; NL])
                  ++ py_str (dict_get (lit "critique")
                               (JStr (lit "No critique provided")) d)
                  ++ [NL; NL]) as ->.
    { assert (forall a b : str, Ok a = Ok b -> b = a) as Hinj
        by (intros a b [= ->]; reflexivity).
      apply Hinj in Hout. rewrite Hout. now rewrite <- !app_assoc. }
    now apply Hline.
Qed.

(** The text of a record is framed by its number and a page break:
    the record at position [i], counted from zero, begins with the heading of
    problem [i + 1] and ends with the page break. *)
Theorem record_text_frame i critique_entry out :
  render_entry i critique_entry = Ok out ->
  exists middle,
    out = lit "\subsection*{Problem " ++ str_of_Z (Z.of_nat i + 1)
          ++ lit " (Paper: " ++ middle ++ line "\newpage".
Proof.
  unfold render_entry, render_heading.
  destruct (py_get critique_entry (lit "paper_id") _) as [paper|]; [|discriminate].
  cbn [mbind result_bind].
  destruct (py_get critique_entry (lit "problem_index") _) as [idx|]; [|discriminate].
  cbn [mbind result_bind mret result_ret].
  destruct (render_original critique_entry) as [o|]; [|discriminate].
  cbn [mbind result_bind].
  destruct (render_critiques critique_entry) as [c|]; [|discriminate].
  cbn [mbind result_bind].
  destruct (render_outcome critique_entry) as [oc|]; [|discriminate].
  cbn [mbind result_bind mret result_ret]. intros Hout.
  assert (forall a b : str, Ok a = Ok b -> b = a) as Hinj
    by (intros a b [= ->]; reflexivity).
  apply Hinj in Hout. subst out.
  exists (escape_latex paper ++ lit ", Index: " ++ py_str idx ++ lit ")}" ++ [NL; NL]
          ++ o ++ c ++ oc).
  now rewrite <- !app_assoc.
Qed.

End Reading.

Lemma status_colour_follows_flag_witness :
  starts_with (lit "\textcolor{fail}{\textbf{Status: ")
    (lit "\textcolor{fail}{\textbf{Status: Trivial}}" ++ [NL; NL]
     ++ lit "No critique provided" ++ [NL; NL])
  = negb (truthy (dict_get (lit "is_non_trivial") (JBool false) [])).
Proof.
  apply (proj2 (@status_colour_follows_flag example_env (lit "difficulty")
                  (lit "is_non_trivial") []
                  (lit "\textcolor{fail}{\textbf{Status: Trivial}}" ++ [NL; NL]
                   ++ lit "No critique provided" ++ [NL; NL])
                  (or_intror (or_introl eq_refl)) eq_refl eq_refl)).
Defined.

Lemma record_text_frame_witness :
  exists middle,
    lit "\subsection*{Problem 1 (Paper: N/A, Index: 0)}" ++ [NL; NL]
    ++ line "\subsubsection*{Original Problem Statement}"
    ++ lit "No problem statement" ++ [NL; NL]
    ++ line "\subsubsection*{Original Solution}" ++ lit "\[ No solution \]" ++ [NL; NL]
    ++ line "\subsubsection*{Critiques}"
    ++ STATUS_HEADING ++ EXCLUSION_NOTICE ++ line "\newpage"
    = lit "\subsection*{Problem " ++ str_of_Z (Z.of_nat 0 + 1)
      ++ lit " (Paper: " ++ middle ++ line "\newpage".
Proof.
  apply (@record_text_frame example_env 0%nat
           (JDict [ (lit "included_in_dataset", JBool false) ])).
  vm_compute. reflexivity.
Defined.
